(** * systemctl: a wrapper object around the [systemctl] command line tool

    Shallow embedding of [src/systemctl/__init__.py] (class [SystemCtl]) and
    of [src/systemctl/constants/DSystemCtl.py].

    Modelling choices, all taken from the source:
    - a Python [str] is a [string]; the characters are the code points below
      256, which is where the classes [\s], [\d] and [.] of the patterns are
      spelled out;
    - [None] is the [None] of [option]; truthiness ([if x:], [not x]) is
      written out by [truthy];
    - [self.result], a dict with five fixed keys, is the record [Result];
    - [int] is Python's on a run of decimal digits, with the limit on the
      length of the text that the interpreter sets by default;
    - the object [self] and the outside world (environment variables, the
      commands handed to [subprocess.run]) form the state of a small
      state-and-exception monad; a raised [ValueError] keeps the state
      reached so far, as a Python exception does;
    - what [subprocess.run] answers is not decided by the program: it is a
      section variable, a function of the commands run before, the command
      and the timeout. *)

From stdpp Require Import base strings gmap.
From Stdlib Require Import ZArith Ascii String List Lia DecimalString.
Import ListNotations.
Local Open Scope string_scope.
Local Open Scope list_scope.
Local Open Scope Z_scope.

(** ** The fragment of Python's [re] that the source uses *)

Module Re.

(** One-character items of a pattern. *)
Inductive atom : Type :=
| Lit (c : ascii)   (* a literal character, escaped or not *)
| Dot               (* [.] without DOTALL *)
| Space             (* [\s] *)
| Digit.            (* [\d] *)

(** A pattern is a sequence of nodes. [x+] is [x] followed by [x*]. *)
Inductive node : Type :=
| One (a : atom)
| Star (a : atom)   (* greedy [a*] *)
| Bol               (* [^] under re.MULTILINE *)
| GroupOpen         (* [(] of group 1 *)
| GroupClose.       (* [)] of group 1 *)

Definition regex := list node.

Definition newline : ascii := "010"%char.

Definition is_newline (c : ascii) : bool := Ascii.eqb c newline.

(** [str.isspace] on one code point below 256: tab, line feed, vertical
    tab, form feed, carriage return, the separators 28..31, space, NEL
    (133) and the no-break space (160). *)
Definition is_space (c : ascii) : bool :=
  let n := nat_of_ascii c in
  ((9 <=? n) && (n <=? 13) || (28 <=? n) && (n <=? 32)
   || (n =? 133) || (n =? 160))%nat.

(** The decimal digits below 256 are ['0'..'9']. *)
Definition is_digit (c : ascii) : bool :=
  let n := nat_of_ascii c in ((48 <=? n) && (n <=? 57))%nat.

Definition atom_ok (a : atom) (c : ascii) : bool :=
  match a with
  | Lit c' => Ascii.eqb c c'
  | Dot => negb (is_newline c)
  | Space => is_space c
  | Digit => is_digit c
  end.

(** A successful match; [group1] is [m.group(1)], [None] when the group
    did not take part. *)
Record Match : Type := mk_match { group1 : option string }.

(** The text consumed between [opened] and the shorter suffix [now]. *)
Definition consumed (opened now : string) : string :=
  substring 0 (String.length opened - String.length now) opened.

(** Backtracking matcher anchored at the current position.
    [bol] says whether the position is at the start of the subject or just
    after a newline; [g] is the suffix at which group 1 was opened and
    [cap] what group 1 holds. A star takes as many characters as it can and
    gives them back one at a time. *)
Fixpoint match_here (r : regex) (bol : bool) (s : string)
         (g cap : option string) {struct r} : option Match :=
  match r with
  | [] => Some (mk_match cap)
  | One a :: r' =>
      match s with
      | String c s' =>
          if atom_ok a c then match_here r' (is_newline c) s' g cap else None
      | EmptyString => None
      end
  | Star a :: r' =>
      (fix loop (bol : bool) (s : string) {struct s} : option Match :=
         match s with
         | String c s' =>
             if atom_ok a c then
               match loop (is_newline c) s' with
               | Some m => Some m
               | None => match_here r' bol s g cap
               end
             else match_here r' bol s g cap
         | EmptyString => match_here r' bol s g cap
         end) bol s
  | Bol :: r' => if bol then match_here r' bol s g cap else None
  | GroupOpen :: r' => match_here r' bol s (Some s) cap
  | GroupClose :: r' =>
      match_here r' bol s g
        (match g with Some s0 => Some (consumed s0 s) | None => cap end)
  end.

(** [re.search]: the first position, from left to right, at which the
    pattern matches. *)
Fixpoint search_from (r : regex) (bol : bool) (s : string) : option Match :=
  match match_here r bol s None None with
  | Some m => Some m
  | None =>
      match s with
      | String c s' => search_from r (is_newline c) s'
      | EmptyString => None
      end
  end.

Definition search (r : regex) (s : string) : option Match :=
  search_from r true s.

(** A match object is true, [None] is false. *)
Definition matched (m : option Match) : bool :=
  match m with Some _ => true | None => false end.

(** Pattern building. *)
Fixpoint lit (s : string) : regex :=
  match s with
  | EmptyString => []
  | String c s' => One (Lit c) :: lit s'
  end.

Definition plus (a : atom) : regex := [One a; Star a].
Definition star (a : atom) : regex := [Star a].
Definition group (r : regex) : regex := GroupOpen :: r ++ [GroupClose].

End Re.

(** ** [int] on the captured text *)

Definition digit_value (c : ascii) : Z := Z.of_nat (nat_of_ascii c) - 48.

Fixpoint int_acc (acc : Z) (s : string) : option Z :=
  match s with
  | EmptyString => Some acc
  | String c s' =>
      if Re.is_digit c then int_acc (acc * 10 + digit_value c) s' else None
  end.

(** [sys.int_info.default_max_str_digits]: a text of more decimal digits
    than this is refused by [int], leading zeros counted. *)
Definition int_max_str_digits : nat := 4300.

(** [int(s)] for a text made of decimal digits; [None] is a [ValueError]:
    of a text longer than the limit, of the empty text and of a text with
    another character in it. Signs, blanks and underscores, which [int]
    also reads, never reach it here: its only argument is a capture of
    [\d+]. *)
Definition int (s : string) : option Z :=
  match s with
  | EmptyString => None
  | _ =>
      if (String.length s <=? int_max_str_digits)%nat
      then int_acc 0 s
      else None
  end.

(** [str(e)] of the [ValueError] that [int(s)] raises. *)
Definition int_error (s : string) : string :=
  if (String.length s <=? int_max_str_digits)%nat
  then "invalid literal for int() with base 10: '" +:+ s +:+ "'"
  else "Exceeds the limit (4300 digits) for integer string conversion: "
         +:+ "value has "
         +:+ NilZero.string_of_uint (Nat.to_uint (String.length s))
         +:+ " digits; use sys.set_int_max_str_digits() to increase the limit".

(** ** The patterns of [_update_status] *)

Module Pattern.
Import Re.

(** [^\s*Active:\s+active \(running\).*] *)
Definition active_running : regex :=
  [Bol] ++ star Space ++ lit "Active:" ++ plus Space
        ++ lit "active (running)" ++ star Dot.

(** [^\s*Main PID:.*\(code=exited\).*] *)
Definition main_pid_exited : regex :=
  [Bol] ++ star Space ++ lit "Main PID:" ++ star Dot
        ++ lit "(code=exited)" ++ star Dot.

(** [^\s*Active:\s+inactive \(dead\).*] *)
Definition inactive_dead : regex :=
  [Bol] ++ star Space ++ lit "Active:" ++ plus Space
        ++ lit "inactive (dead)" ++ star Dot.

(** [Loaded: .*; enabled;] *)
Definition loaded_enabled : regex :=
  lit "Loaded: " ++ star Dot ++ lit "; enabled;".

(** [Loaded: .*; disabled;] *)
Definition loaded_disabled : regex :=
  lit "Loaded: " ++ star Dot ++ lit "; disabled;".

(** [^\s*Main PID:\s+(\d+)] *)
Definition main_pid : regex :=
  [Bol] ++ star Space ++ lit "Main PID:" ++ plus Space ++ group (plus Digit).

End Pattern.

(** ** [constants/DSystemCtl.py] *)

Definition SYSTEMCTL : string := "systemctl".
Definition SUDO : string := "sudo".
Definition TIMEOUT : Z := 10.

Module DSystemCtl.
Definition ENABLE : string := "enable".
Definition DISABLE : string := "disable".
Definition RESTART : string := "restart".
Definition STATUS : string := "status".
Definition START : string := "start".
Definition STOP : string := "stop".
End DSystemCtl.

Module DMsg.
Definition NO_SERVICE_NAME : string := "service name not specified".
Definition NOT_FOUND : string := "could not be found".
Definition TIMEOUT : string := "systemctl timed out".
End DMsg.

(** [class ExitCode(IntEnum)] and the integer a member stands for. *)
Module ExitCode.
Inductive t : Type := OK | ERROR.
Definition value (c : t) : Z :=
  match c with OK => 0 | ERROR => 5 end.
End ExitCode.

(** ** Python values the class relies on *)

(** [if x:] for a name that is a [str] or [None]. *)
Definition truthy (x : option string) : bool :=
  match x with
  | Some (String _ _) => true
  | Some EmptyString => false
  | None => false
  end.

(** [needle in hay] on strings. *)
Fixpoint str_in (needle hay : string) : bool :=
  if String.prefix needle hay then true
  else match hay with
       | EmptyString => false
       | String _ hay' => str_in needle hay'
       end.

Inductive exn : Type :=
| ValueError (msg : string)
| TypeError (msg : string).

(** ** The object and the world around it *)

(** [self.result]: the keys of [DResult]. *)
Record Result : Type := mk_result {
  ACTIVE : option bool;
  PID : option Z;
  ENABLED : option bool;
  RAW_STDOUT : string;
  RAW_STDERR : string
}.

Record SystemCtl : Type := mk_self {
  result : Result;
  _service_name : option string;
  _timeout : Z
}.

(** An argument vector; [None] is a Python [None] among the arguments. *)
Definition Cmd := list (option string).

(** What one call of [subprocess.run] ends in: a completed process with its
    two decoded streams and its return code, [subprocess.TimeoutExpired], or
    another exception with its [str(e)]. *)
Inductive Outcome : Type :=
| CompletedProcess (stdout stderr : string) (returncode : Z)
| TimeoutExpired
| OtherException (str_e : string).

Record World : Type := mk_world {
  environ : gmap string string;
  calls : list Cmd          (* the commands run so far, oldest first *)
}.

Record State : Type := mk_state { self : SystemCtl; world : World }.

(** ** State and exceptions *)

Inductive res (A : Type) : Type :=
| Return (a : A)
| Raise (e : exn).
Arguments Return {A} a.
Arguments Raise {A} e.

Definition M (A : Type) : Type := State -> res A * State.

Definition ret {A} (a : A) : M A := fun st => (Return a, st).

Definition bind {A B} (m : M A) (k : A -> M B) : M B :=
  fun st =>
    match m st with
    | (Return a, st') => k a st'
    | (Raise e, st') => (Raise e, st')
    end.

Definition raise {A} (e : exn) : M A := fun st => (Raise e, st).

Definition gets {A} (f : SystemCtl -> A) : M A :=
  fun st => (Return (f (self st)), st).

Definition modify_self (f : SystemCtl -> SystemCtl) : M unit :=
  fun st => (Return tt, mk_state (f (self st)) (world st)).

Definition modify_world (f : World -> World) : M unit :=
  fun st => (Return tt, mk_state (self st) (f (world st))).

#[global] Instance M_ret : MRet M := @ret.
#[global] Instance M_bind : MBind M := fun A B k m => bind m k.

(** [self.result[key] = v], one per key. *)
Definition with_result (f : Result -> Result) (o : SystemCtl) : SystemCtl :=
  mk_self (f (result o)) (_service_name o) (_timeout o).

Definition set_ACTIVE (v : option bool) : M unit :=
  modify_self (with_result (fun r =>
    mk_result v (PID r) (ENABLED r) (RAW_STDOUT r) (RAW_STDERR r))).

Definition set_PID (v : option Z) : M unit :=
  modify_self (with_result (fun r =>
    mk_result (ACTIVE r) v (ENABLED r) (RAW_STDOUT r) (RAW_STDERR r))).

Definition set_ENABLED (v : option bool) : M unit :=
  modify_self (with_result (fun r =>
    mk_result (ACTIVE r) (PID r) v (RAW_STDOUT r) (RAW_STDERR r))).

Definition set_RAW_STDOUT (v : string) : M unit :=
  modify_self (with_result (fun r =>
    mk_result (ACTIVE r) (PID r) (ENABLED r) v (RAW_STDERR r))).

Definition set_RAW_STDERR (v : string) : M unit :=
  modify_self (with_result (fun r =>
    mk_result (ACTIVE r) (PID r) (ENABLED r) (RAW_STDOUT r) v)).

Definition set_service_name (v : option string) : M unit :=
  modify_self (fun o => mk_self (result o) v (_timeout o)).

Definition set_timeout (v : Z) : M unit :=
  modify_self (fun o => mk_self (result o) (_service_name o) v).

(** [os.environ[k] = v] *)
Definition setenv (k v : string) : M unit :=
  modify_world (fun w => mk_world (<[k := v]> (environ w)) (calls w)).

(** An object before [__init__] has run. It has no attribute yet;
    [__init__] writes all three before anything reads them, so what stands
    here is never looked at. *)
Definition blank : SystemCtl :=
  mk_self (mk_result None None None "" "") None 0.

(** ** [class SystemCtl] *)

Section SystemCtl.

(** The answer of [subprocess.run(cmd, stdout=PIPE, stderr=PIPE, input="",
    timeout=...)], given the commands run before it. The two streams of a
    completed process are taken after [.decode(errors="replace")], which
    cannot fail. *)
Variable subprocess_run : list Cmd -> Cmd -> Z -> Outcome.

(** The two keys of [systemctl.constants.DEnviron], a module that is not
    among the sources. *)
Variables SYSTEMD_COLORS SYSTEMD_PAGER : string.

Definition run (cmd : Cmd) (timeout : Z) : M Outcome :=
  fun st =>
    (Return (subprocess_run (calls (world st)) cmd timeout),
     mk_state (self st)
              (mk_world (environ (world st)) (calls (world st) ++ [cmd]))).

(** [def stdout(self)] *)
Definition stdout : M string := gets (fun o => RAW_STDOUT (result o)).

(** [def stderr(self)] *)
Definition stderr : M string := gets (fun o => RAW_STDERR (result o)).

(** [def _run_systemctl(self, arg)], with the method it calls back for
    [enable] and [disable] left open. *)
Definition _run_systemctl_with (update_status : M unit) (arg : string) : M Z :=
  name ← gets _service_name;
  let cmd : Cmd :=
    if String.eqb arg DSystemCtl.STATUS
    then [Some SYSTEMCTL; Some arg; name]
    else [Some SUDO; Some SYSTEMCTL; Some arg; name] in
  timeout ← gets _timeout;
  proc ← run cmd timeout;
  match proc with
  | TimeoutExpired =>
      set_RAW_STDOUT "";;
      set_RAW_STDERR DMsg.TIMEOUT;;
      mret (ExitCode.value ExitCode.ERROR)
  | OtherException str_e =>
      set_RAW_STDOUT "";;
      set_RAW_STDERR str_e;;
      mret (ExitCode.value ExitCode.ERROR)
  | CompletedProcess out err returncode =>
      set_RAW_STDOUT out;;
      set_RAW_STDERR err;;
      (if String.eqb arg DSystemCtl.ENABLE || String.eqb arg DSystemCtl.DISABLE
       then update_status
       else mret tt);;
      mret returncode
  end.

(** [def _update_status(self)], with the method it calls left open. *)
Definition _update_status_with (run_systemctl : string -> M Z) : M unit :=
  name ← gets _service_name;
  if negb (truthy name) then raise (ValueError DMsg.NO_SERVICE_NAME)
  else
    run_systemctl DSystemCtl.STATUS;;
    out ← stdout;
    err ← stderr;
    if str_in DMsg.NOT_FOUND err then
      set_ACTIVE None;;
      set_PID None;;
      set_ENABLED None
    else
      (* Check for active state *)
      (if Re.matched (Re.search Pattern.active_running out)
       then set_ACTIVE (Some true)
       else if Re.matched (Re.search Pattern.main_pid_exited out)
       then set_ACTIVE (Some false)
       else if Re.matched (Re.search Pattern.inactive_dead out)
       then set_ACTIVE (Some false)
       else mret tt);;
      (* Check for enabled state *)
      (if Re.matched (Re.search Pattern.loaded_enabled out)
       then set_ENABLED (Some true)
       else if Re.matched (Re.search Pattern.loaded_disabled out)
       then set_ENABLED (Some false)
       else mret tt);;
      (* Get PID *)
      let pid_match := Re.search Pattern.main_pid out in
      active ← gets (fun o => ACTIVE (result o));
      match pid_match, active with
      | Some m, Some true =>
          match Re.group1 m with
          | Some digits =>
              match int digits with
              | Some n => set_PID (Some n)
              | None => raise (ValueError (int_error digits))
              end
          | None => raise (TypeError "int() argument must be a string")
          end
      | _, _ => mret tt
      end.

(** The two methods call each other, but never deeper than
    [_run_systemctl(enable)] -> [_update_status] -> [_run_systemctl(status)],
    and the last one calls nothing back. *)
Definition _update_status : M unit :=
  _update_status_with (_run_systemctl_with (mret tt)).

Definition _run_systemctl : string -> M Z :=
  _run_systemctl_with _update_status.

(** [def __init__(self, service_name=None)] *)
Definition __init__ (service_name : option string) : M unit :=
  setenv SYSTEMD_COLORS "0";;
  setenv SYSTEMD_PAGER "";;
  modify_self (fun o =>
    mk_self (mk_result None None None "" "") (_service_name o) (_timeout o));;
  set_service_name service_name;;
  set_timeout TIMEOUT;;
  _update_status.

(** [SystemCtl(service_name)]: [__init__] run on a fresh object. The
    caller holds the object only when [__init__] returns; an exception
    leaves it with the exception and the world as changed so far. *)
Definition new (service_name : option string) (w : World)
  : res SystemCtl * World :=
  match __init__ service_name (mk_state blank w) with
  | (Return _, st) => (Return (self st), world st)
  | (Raise e, st) => (Raise e, world st)
  end.

(** [def disable(self)] *)
Definition disable : M Z :=
  name ← gets _service_name;
  if negb (truthy name) then raise (ValueError DMsg.NO_SERVICE_NAME)
  else _run_systemctl DSystemCtl.DISABLE.

(** [def enable(self)] *)
Definition enable : M Z :=
  name ← gets _service_name;
  if negb (truthy name) then raise (ValueError DMsg.NO_SERVICE_NAME)
  else _run_systemctl DSystemCtl.ENABLE.

(** [def enabled(self)] *)
Definition enabled : M (option bool) := gets (fun o => ENABLED (result o)).

(** [def installed(self)]: [not self.stderr()] *)
Definition installed : M bool :=
  err ← stderr;
  mret (match err with EmptyString => true | String _ _ => false end).

(** [def pid(self)] *)
Definition pid : M (option Z) := gets (fun o => PID (result o)).

(** [def restart(self)] *)
Definition restart : M Z :=
  name ← gets _service_name;
  if negb (truthy name) then raise (ValueError DMsg.NO_SERVICE_NAME)
  else _run_systemctl DSystemCtl.RESTART.

(** [def running(self)] *)
Definition running : M (option bool) :=
  _update_status;;
  gets (fun o => ACTIVE (result o)).

(** [def service_name(self, service_name=None)] *)
Definition service_name (service_name : option string) : M (option string) :=
  old_service_name ← gets _service_name;
  (if truthy service_name then
     set_service_name service_name;;
     if negb (bool_decide (service_name = old_service_name))
     then _update_status
     else mret tt
   else mret tt);;
  gets _service_name.

(** [def start(self)] *)
Definition start : M Z :=
  name ← gets _service_name;
  if negb (truthy name) then raise (ValueError DMsg.NO_SERVICE_NAME)
  else _run_systemctl DSystemCtl.START.

(** [def stop(self)] *)
Definition stop : M Z :=
  name ← gets _service_name;
  if negb (truthy name) then raise (ValueError DMsg.NO_SERVICE_NAME)
  else _run_systemctl DSystemCtl.STOP.

(** [def timeout(self, timeout=None)] *)
Definition timeout (timeout : option Z) : M Z :=
  match timeout with
  | Some t => set_timeout t
  | None => mret tt
  end;;
  gets _timeout.

End SystemCtl.

(** ** Vocabulary of the statements *)

(** A text made of decimal digits only. *)
Fixpoint all_digits (s : string) : bool :=
  match s with
  | EmptyString => true
  | String c s' => Re.is_digit c && all_digits s'
  end.

(** [systemctl status <name>] and [sudo systemctl <arg> <name>] for the
    name the object holds. *)
Definition status_cmd (o : SystemCtl) : Cmd :=
  [Some SYSTEMCTL; Some DSystemCtl.STATUS; _service_name o].

Definition sudo_cmd (arg : string) (o : SystemCtl) : Cmd :=
  [Some SUDO; Some SYSTEMCTL; Some arg; _service_name o].

(** What a command execution leaves in [RAW_STDOUT] and [RAW_STDERR], and
    what it returns, for each way [subprocess.run] can end. *)
Definition captured_stdout (p : Outcome) : string :=
  match p with
  | CompletedProcess out _ _ => out
  | TimeoutExpired => ""
  | OtherException _ => ""
  end.

Definition captured_stderr (p : Outcome) : string :=
  match p with
  | CompletedProcess _ err _ => err
  | TimeoutExpired => DMsg.TIMEOUT
  | OtherException str_e => str_e
  end.

Definition exit_code (p : Outcome) : Z :=
  match p with
  | CompletedProcess _ _ returncode => returncode
  | TimeoutExpired => ExitCode.value ExitCode.ERROR
  | OtherException _ => ExitCode.value ExitCode.ERROR
  end.

(** The state with one more command run, and with the two raw streams
    replaced. *)
Definition logged (cmd : Cmd) (st : State) : State :=
  mk_state (self st)
           (mk_world (environ (world st)) (calls (world st) ++ [cmd])).

Definition stored (out err : string) (st : State) : State :=
  mk_state
    (mk_self
       (mk_result (ACTIVE (result (self st))) (PID (result (self st)))
                  (ENABLED (result (self st))) out err)
       (_service_name (self st)) (_timeout (self st)))
    (world st).

(** The state with another result record. *)
Definition with_fields (r : Result) (st : State) : State :=
  mk_state (mk_self r (_service_name (self st)) (_timeout (self st)))
           (world st).

(** The three parsed fields as [_update_status] leaves them when the unit
    was found, from the stdout it read and the fields before. *)
Definition active_after (out : string) (before : option bool) : option bool :=
  if Re.matched (Re.search Pattern.active_running out) then Some true
  else if Re.matched (Re.search Pattern.main_pid_exited out) then Some false
  else if Re.matched (Re.search Pattern.inactive_dead out) then Some false
  else before.

Definition enabled_after (out : string) (before : option bool) : option bool :=
  if Re.matched (Re.search Pattern.loaded_enabled out) then Some true
  else if Re.matched (Re.search Pattern.loaded_disabled out) then Some false
  else before.

Definition pid_after (out : string) (active : option bool) (before : option Z)
  : option Z :=
  match Re.search Pattern.main_pid out, active with
  | Some m, Some true =>
      match Re.group1 m with
      | Some digits =>
          match int digits with
          | Some n => Some n
          | None => before
          end
      | None => before
      end
  | _, _ => before
  end.

(** How that refresh ends: it returns, or [int] raises on the captured
    digits, active being [True]. *)
Definition refresh_answer (out err : string) (r : Result) : res unit :=
  if str_in DMsg.NOT_FOUND err then Return tt
  else
    match Re.search Pattern.main_pid out, active_after out (ACTIVE r) with
    | Some m, Some true =>
        match Re.group1 m with
        | Some digits =>
            match int digits with
            | Some _ => Return tt
            | None => Raise (ValueError (int_error digits))
            end
        | None => Raise (TypeError "int() argument must be a string")
        end
    | _, _ => Return tt
    end.

(** The digits the Main PID pattern captures in [out], and whether there
    are more of them than [int] reads. *)
Definition pid_digits (out : string) : option string :=
  match Re.search Pattern.main_pid out with
  | Some m => Re.group1 m
  | None => None
  end.

Definition pid_too_long (out : string) : bool :=
  match pid_digits out with
  | Some d => (int_max_str_digits <? String.length d)%nat
  | None => false
  end.

(** What a method returns after a refresh it made: its own value, unless
    the refresh raised. *)
Definition after_refresh {A} (r : res unit) (a : A) : res A :=
  match r with
  | Return _ => Return a
  | Raise e => Raise e
  end.

(** The whole record after a refresh that read [out] and [err]. *)
Definition refreshed (out err : string) (r : Result) : Result :=
  if str_in DMsg.NOT_FOUND err then mk_result None None None out err
  else
    let active := active_after out (ACTIVE r) in
    mk_result active (pid_after out active (PID r))
              (enabled_after out (ENABLED r)) out err.

(** The argument vector [_run_systemctl(arg)] builds, and whether [arg] is
    one of the two subcommands followed by a refresh. *)
Definition command (arg : string) (o : SystemCtl) : Cmd :=
  if String.eqb arg DSystemCtl.STATUS
  then [Some SYSTEMCTL; Some arg; _service_name o]
  else sudo_cmd arg o.

Definition follow_up (arg : string) : bool :=
  String.eqb arg DSystemCtl.ENABLE || String.eqb arg DSystemCtl.DISABLE.

(** ** Sample runs *)

Module Example.

(** The two sample texts of a status query. *)
Definition running_text : string :=
  "Active: active (running) since ..."
    +:+ String Re.newline "  Main PID: 1234 (nginx)".

Definition dead_text : string := "Active: inactive (dead)".

(** A service that runs when first asked and is stopped from then on. *)
Definition stops (history : list Cmd) (cmd : Cmd) (timeout : Z) : Outcome :=
  match history with
  | [] => CompletedProcess running_text "" 0
  | _ :: _ => CompletedProcess dead_text "" 3
  end.

(** A unit systemd does not know; its stdout looks like a running one. *)
Definition missing (history : list Cmd) (cmd : Cmd) (timeout : Z) : Outcome :=
  CompletedProcess running_text "Unit nginx.service could not be found." 4.

(** A [systemctl] that answers every command and reports a running,
    enabled unit. *)
Definition healthy (history : list Cmd) (cmd : Cmd) (timeout : Z) : Outcome :=
  match cmd with
  | [Some "systemctl"; _; _] =>
      CompletedProcess
        ("  Loaded: loaded (/lib/systemd/system/nginx.service; enabled; preset)"
           +:+ String Re.newline running_text) "" 0
  | _ => CompletedProcess "sudo said ok" "" 1
  end.

(** A [systemctl] that never answers in time. *)
Definition hangs (history : list Cmd) (cmd : Cmd) (timeout : Z) : Outcome :=
  TimeoutExpired.

(** A status text of a running service whose Main PID line carries one
    digit more than [int] reads, and a [systemctl] that prints it. *)
Fixpoint digits_run (n : nat) : string :=
  match n with
  | O => EmptyString
  | S n' => String "7" (digits_run n')
  end.

Definition long_pid_text : string :=
  "Active: active (running)"
    +:+ String Re.newline ("Main PID: " +:+ digits_run 4301).

Definition long_pid (history : list Cmd) (cmd : Cmd) (timeout : Z) : Outcome :=
  CompletedProcess long_pid_text "" 0.

Definition world0 : World := mk_world ∅ [].

(** An object as [__init__] leaves its attributes before the first
    refresh, under the given name. *)
Definition handle (name : option string) : State :=
  mk_state (mk_self (mk_result None None None "" "") name TIMEOUT) world0.

End Example.

(** The reading of the pid column of the data model: a pid is there only
    while active is [True]. *)
Definition pid_only_when_active (r : Result) : Prop :=
  PID r <> None -> ACTIVE r = Some true.

(** What [subprocess.run] answers to the status query sent from [st]. *)
Definition status_outcome (subprocess_run : list Cmd -> Cmd -> Z -> Outcome)
           (st : State) : Outcome :=
  subprocess_run (calls (world st)) (status_cmd (self st)) (_timeout (self st)).

(** The object under another name. *)
Definition renamed (name : string) (st : State) : State :=
  mk_state (mk_self (result (self st)) (Some name) (_timeout (self st)))
           (world st).

(** The world after [__init__] has written its two environment variables,
    stored under the keys [colors] and [pager]. *)
Definition quiet (colors pager : string) (w : World) : World :=
  mk_world (<[pager := ""]> (<[colors := "0"]> (environ w))) (calls w).

(** Unfolds the monad and the attribute writes of a method body. *)
Ltac run_monad :=
  unfold mbind, M_bind, mret, M_ret, bind, ret, raise, gets, run,
    set_ACTIVE, set_PID, set_ENABLED, set_RAW_STDOUT, set_RAW_STDERR,
    set_service_name, set_timeout, setenv, modify_self, modify_world,
    with_result, stdout, stderr;
  cbn.

(** ** Programs over one object *)

(** One call of a public method by a user of the class. *)
Module Api.
Inductive call : Type :=
| Start | Stop | Restart | Enable | Disable
| Running | Enabled | Installed | Pid | Stdout | Stderr
| ServiceName (service_name : option string)
| Timeout (timeout : option Z).
End Api.

(** A call made for its effect, the value returned dropped. *)
Definition void {A} (m : M A) : M unit := m;; mret tt.

Definition perform (subprocess_run : list Cmd -> Cmd -> Z -> Outcome)
           (c : Api.call) : M unit :=
  match c with
  | Api.Start => void (start subprocess_run)
  | Api.Stop => void (stop subprocess_run)
  | Api.Restart => void (restart subprocess_run)
  | Api.Enable => void (enable subprocess_run)
  | Api.Disable => void (disable subprocess_run)
  | Api.Running => void (running subprocess_run)
  | Api.Enabled => void enabled
  | Api.Installed => void installed
  | Api.Pid => void pid
  | Api.Stdout => void stdout
  | Api.Stderr => void stderr
  | Api.ServiceName n => void (service_name subprocess_run n)
  | Api.Timeout t => void (timeout t)
  end.

(** Calls made one after the other; an exception ends the program. *)
Fixpoint perform_all (subprocess_run : list Cmd -> Cmd -> Z -> Outcome)
         (cs : list Api.call) : M unit :=
  match cs with
  | [] => mret tt
  | c :: cs' => perform subprocess_run c;; perform_all subprocess_run cs'
  end.

(** [o = SystemCtl(name)] followed by calls on [o], from the world [w];
    [colors] and [pager] are the two keys of [DEnviron]. *)
Definition session (subprocess_run : list Cmd -> Cmd -> Z -> Outcome)
           (colors pager : string) (name : option string)
           (cs : list Api.call) (w : World) : res unit * State :=
  (__init__ subprocess_run colors pager name;; perform_all subprocess_run cs)
    (mk_state blank w).

(** The two shapes of command the class builds for a named object:
    [systemctl status <name>], and [sudo systemctl <subcommand> <name>] for
    the five other subcommands. *)
Definition cmd_ok (c : Cmd) : bool :=
  match c with
  | [Some a; Some b; n] =>
      String.eqb a SYSTEMCTL && String.eqb b DSystemCtl.STATUS && truthy n
  | [Some a; Some b; Some sub; n] =>
      String.eqb a SUDO && String.eqb b SYSTEMCTL
      && (String.eqb sub DSystemCtl.START || String.eqb sub DSystemCtl.STOP
          || String.eqb sub DSystemCtl.RESTART
          || String.eqb sub DSystemCtl.ENABLE
          || String.eqb sub DSystemCtl.DISABLE)
      && truthy n
  | _ => false
  end.

(** What every object built with a name keeps: its name stays non-empty, a
    pid is held only once active is known, and a pid is never negative. *)
Definition pid_known_active (r : Result) : Prop :=
  PID r <> None -> ACTIVE r <> None.

Definition pid_nonneg (r : Result) : Prop :=
  forall n, PID r = Some n -> 0 <= n.

Definition kept (st : State) : Prop :=
  truthy (_service_name (self st)) = true
  /\ pid_known_active (result (self st))
  /\ pid_nonneg (result (self st)).

(** [st'] comes after [st]: what is kept is kept, the environment is the
    same, and the commands [added] were run, each of one of the two
    shapes. *)
Definition follows (st st' : State) (added : list Cmd) : Prop :=
  kept st'
  /\ environ (world st') = environ (world st)
  /\ calls (world st') = calls (world st) ++ added
  /\ forallb cmd_ok added = true.

(** ** Shapes of status text *)

(** Every character of [s] belongs to the class [a]; the first character of
    [s] does. *)
Fixpoint all_ok (a : Re.atom) (s : string) : bool :=
  match s with
  | EmptyString => true
  | String c s' => Re.atom_ok a c && all_ok a s'
  end.

Definition head_ok (a : Re.atom) (s : string) : bool :=
  match s with
  | EmptyString => false
  | String c _ => Re.atom_ok a c
  end.

(** Whether the position after [s] is at the start of a line, when the
    position before [s] was ([bol]) or was not. *)
Fixpoint bol_after (bol : bool) (s : string) : bool :=
  match s with
  | EmptyString => bol
  | String c s' => bol_after (Re.is_newline c) s'
  end.

(** No line of [s] has [c0] as its first character after the blanks it
    begins with. [lead] says that only blanks were read since the last
    start of a line; a line end is a blank too. *)
Fixpoint lines_avoid (c0 : ascii) (lead : bool) (s : string) : bool :=
  match s with
  | EmptyString => true
  | String c s' =>
      if lead then
        if Re.is_space c then lines_avoid c0 true s'
        else negb (Ascii.eqb c c0) && lines_avoid c0 false s'
      else lines_avoid c0 (Re.is_newline c) s'
  end.

(** [out] has a line that reads, after blanks, "Active:", blanks, "active
    (running)". *)
Definition running_line (out : string) : Prop :=
  exists pre ws ws' rest,
    out = pre +:+ (ws +:+ ("Active:" +:+ (ws' +:+ ("active (running)" +:+ rest))))
    /\ bol_after true pre = true
    /\ all_ok Re.Space ws = true
    /\ all_ok Re.Space ws' = true /\ ws' <> "".

(** The first line of [out] that begins, after blanks, with an "M" reads
    "Main PID:", blanks, and the digits [d] followed by something that is
    not a digit. *)
Definition pid_line (out d : string) : Prop :=
  exists pre ws ws' rest,
    out = pre +:+ (ws +:+ ("Main PID:" +:+ (ws' +:+ (d +:+ rest))))
    /\ bol_after true pre = true
    /\ lines_avoid "M" true pre = true
    /\ all_ok Re.Space ws = true
    /\ all_ok Re.Space ws' = true /\ ws' <> ""
    /\ all_digits d = true /\ d <> ""
    /\ head_ok Re.Digit rest = false.

(** [out] has, somewhere, "Loaded: " and later on the same line
    "; enabled;". *)
Definition enabled_line (out : string) : Prop :=
  exists pre mid post,
    out = pre +:+ ("Loaded: " +:+ (mid +:+ ("; enabled;" +:+ post)))
    /\ all_ok Re.Dot mid = true.

(** [systemctl] never prints more digits after Main PID than [int] reads. *)
Definition short_pids (subprocess_run : list Cmd -> Cmd -> Z -> Outcome)
  : Prop :=
  forall history cmd timeout,
    pid_too_long (captured_stdout (subprocess_run history cmd timeout)) = false.

(** If [r] is an exception, it is the [ValueError] of [int] on a run of
    more digits than it reads. *)
Definition only_int_raised {A} (r : res A) : Prop :=
  forall e,
    r = Raise e ->
    exists d,
      e = ValueError (int_error d)
      /\ (int_max_str_digits < String.length d)%nat.

(** ** Facts about the matcher *)

Section MatcherFacts.
Import Re.

(** Whatever a pattern ends in decides what a match of the whole pattern
    can look like. *)
Lemma match_here_tail (P : Match -> Prop) (tail : regex) :
  (forall bol s g cap m, match_here tail bol s g cap = Some m -> P m) ->
  forall pre bol s g cap m,
    match_here (pre ++ tail) bol s g cap = Some m -> P m.
Proof.
  intros Htail pre.
  induction pre as [|n pre IH]; intros bol s g cap m; simpl.
  - apply Htail.
  - destruct n as [a | a | | | ].
    + destruct s as [|c s']; [discriminate|].
      destruct (atom_ok a c); [apply IH | discriminate].
    + revert bol.
      induction s as [|c s' IHs]; intros bol.
      * apply IH.
      * destruct (atom_ok a c); [|apply IH].
        match goal with |- context [match ?l with _ => _ end] =>
          destruct l as [m'|] eqn:E end.
        -- intros [= <-]. exact (IHs _ E).
        -- apply IH.
    + destruct bol; [apply IH | discriminate].
    + apply IH.
    + apply IH.
Qed.

Lemma search_from_match_here r bol s m :
  search_from r bol s = Some m ->
  exists bol' s', match_here r bol' s' None None = Some m.
Proof.
  revert bol.
  induction s as [|c s' IH]; intros bol; simpl.
  - destruct (match_here r bol "" None None) eqn:E; [|discriminate].
    intros [= <-]. eauto.
  - destruct (match_here r bol (String c s') None None) eqn:E.
    + intros [= <-]. eauto.
    + apply IH.
Qed.

End MatcherFacts.

Section CaptureFacts.
Import Re.

Lemma substring_prefix_append (ds rest : string) :
  substring 0 (String.length ds) (ds +:+ rest) = ds.
Proof.
  induction ds as [|c ds IH]; simpl.
  - now destruct rest.
  - now rewrite IH.
Qed.

Lemma length_append (a b : string) :
  String.length (a +:+ b) = (String.length a + String.length b)%nat.
Proof. induction a as [|c a IH]; simpl; [reflexivity | now rewrite IH]. Qed.

Lemma consumed_append (ds rest : string) : consumed (ds +:+ rest) rest = ds.
Proof.
  unfold consumed. rewrite length_append.
  replace (String.length ds + String.length rest - String.length rest)%nat
    with (String.length ds) by lia.
  apply substring_prefix_append.
Qed.

(** [\d*] in front of the closing parenthesis eats digits and nothing
    else. *)
Lemma digits_then_close s0 s bol cap m :
  match_here [Star Digit; GroupClose] bol s (Some s0) cap = Some m ->
  exists ds rest,
    s = ds +:+ rest /\ all_digits ds = true
    /\ m = mk_match (Some (consumed s0 rest)).
Proof.
  revert bol. induction s as [|c s' IH]; intros bol; simpl.
  - intros [= <-]. exists "", "". auto.
  - destruct (is_digit c) eqn:Hc.
    + match goal with |- context [match ?l with _ => _ end] =>
        destruct l as [m'|] eqn:E end.
      * intros [= <-].
        destruct (IH (is_newline c)) as (ds & rest & -> & Hds & ->);
          [exact E|].
        exists (String c ds), rest. simpl. rewrite Hc, Hds. auto.
      * intros [= <-]. exists "", (String c s'). auto.
    + intros [= <-]. exists "", (String c s'). auto.
Qed.

Lemma group_digits_capture bol s g cap m :
  match_here (group (plus Digit)) bol s g cap = Some m ->
  exists d, group1 m = Some d /\ d <> "" /\ all_digits d = true.
Proof.
  unfold group, plus. cbn [app].
  destruct s as [|c s']; [discriminate|].
  cbn [match_here atom_ok].
  destruct (is_digit c) eqn:Hc; [|discriminate].
  intros H. apply (digits_then_close _ _ _ cap) in H.
  destruct H as (ds & rest & -> & Hds & ->).
  exists (String c ds). cbn [group1].
  change (String c (ds +:+ rest)) with (String c ds +:+ rest).
  rewrite consumed_append. simpl. rewrite Hc, Hds.
  split; [reflexivity | split; [discriminate | reflexivity]].
Qed.

Lemma int_acc_all_digits s acc :
  all_digits s = true -> exists n, int_acc acc s = Some n.
Proof.
  revert acc. induction s as [|c s' IH]; intros acc; simpl.
  - eauto.
  - destruct (is_digit c); [|discriminate]. simpl. apply IH.
Qed.

(** Group 1 of [^\s*Main PID:\s+(\d+)] is a run of digits, not empty. *)
Lemma main_pid_group_digits out m :
  search Pattern.main_pid out = Some m ->
  exists d, group1 m = Some d /\ d <> "" /\ all_digits d = true.
Proof.
  intros H. apply search_from_match_here in H.
  destruct H as (bol & s & H).
  revert H.
  change Pattern.main_pid with
    (([Bol] ++ star Space ++ lit "Main PID:" ++ plus Space)
       ++ group (plus Digit)).
  apply match_here_tail with
    (P := fun m =>
            exists d, group1 m = Some d /\ d <> "" /\ all_digits d = true).
  intros. eapply group_digits_capture; eauto.
Qed.

(** [int] reads every run of digits up to the limit, and no longer one. *)
Lemma int_short_digits (d : string) :
  all_digits d = true -> d <> "" ->
  (String.length d <= int_max_str_digits)%nat ->
  exists n, int d = Some n.
Proof.
  intros Hd Hne Hlen. destruct (int_acc_all_digits d 0 Hd) as (n & Hn).
  exists n. destruct d as [|c d]; [congruence|].
  unfold int. apply Nat.leb_le in Hlen. now rewrite Hlen.
Qed.

Lemma int_long_text (d : string) :
  (int_max_str_digits < String.length d)%nat -> int d = None.
Proof.
  intros Hlen. destruct d as [|c d]; [reflexivity|].
  unfold int. apply Nat.leb_gt in Hlen. now rewrite Hlen.
Qed.

End CaptureFacts.

(** ** How the two internal methods run *)

Arguments Re.search : simpl never.
Arguments str_in : simpl never.
Opaque Pattern.active_running Pattern.main_pid_exited Pattern.inactive_dead
  Pattern.loaded_enabled Pattern.loaded_disabled Pattern.main_pid
  DMsg.NOT_FOUND.

Section Internals.

Variable subprocess_run : list Cmd -> Cmd -> Z -> Outcome.

Lemma run_systemctl_status (update_status : M unit) (st : State) :
  let p := status_outcome subprocess_run st in
  _run_systemctl_with subprocess_run update_status DSystemCtl.STATUS st
  = (Return (exit_code p),
     stored (captured_stdout p) (captured_stderr p)
            (logged (status_cmd (self st)) st)).
Proof.
  unfold _run_systemctl_with, status_outcome, status_cmd.
  run_monad.
  destruct (subprocess_run _ _ _); reflexivity.
Qed.

(** A refresh of a named object leaves [refreshed] and ends as
    [refresh_answer] says; the method handed to [_run_systemctl] for
    [enable] and [disable] plays no part in it. *)
Lemma update_status_with_named (update_status : M unit) (st : State) :
  truthy (_service_name (self st)) = true ->
  let p := status_outcome subprocess_run st in
  _update_status_with (_run_systemctl_with subprocess_run update_status) st
  = (refresh_answer (captured_stdout p) (captured_stderr p) (result (self st)),
     with_fields (refreshed (captured_stdout p) (captured_stderr p)
                            (result (self st)))
                 (logged (status_cmd (self st)) st)).
Proof.
  intros Hname p.
  unfold _update_status_with.
  unfold mbind at 1, M_bind at 1, bind at 1, gets at 1.
  rewrite Hname. cbn [negb].
  unfold mbind at 1, M_bind at 1, bind at 1.
  rewrite run_systemctl_status. fold p.
  unfold refreshed, refresh_answer, with_fields, stored, logged.
  run_monad.
  destruct (str_in DMsg.NOT_FOUND (captured_stderr p)); [reflexivity|].
  unfold active_after, enabled_after, pid_after.
  destruct (Re.search Pattern.main_pid (captured_stdout p)) as [[[d|]]|];
    cbn [Re.group1]; [destruct (int d) | | ];
    (destruct (Re.matched (Re.search Pattern.active_running _));
     [|destruct (Re.matched (Re.search Pattern.main_pid_exited _));
       [|destruct (Re.matched (Re.search Pattern.inactive_dead _))]]);
    (destruct (Re.matched (Re.search Pattern.loaded_enabled _));
     [|destruct (Re.matched (Re.search Pattern.loaded_disabled _))]);
    cbn; try reflexivity;
    destruct (ACTIVE (result (self st))) as [[|]|]; reflexivity.
Qed.

(** Without a name a refresh raises before anything is run. *)
Lemma update_status_with_unnamed (run_systemctl : string -> M Z) (st : State) :
  truthy (_service_name (self st)) = false ->
  _update_status_with run_systemctl st
  = (Raise (ValueError DMsg.NO_SERVICE_NAME), st).
Proof.
  intros Hname. unfold _update_status_with.
  unfold mbind at 1, M_bind at 1, bind at 1, gets at 1.
  now rewrite Hname.
Qed.

Lemma update_status_named (st : State) :
  truthy (_service_name (self st)) = true ->
  let p := status_outcome subprocess_run st in
  _update_status subprocess_run st
  = (refresh_answer (captured_stdout p) (captured_stderr p) (result (self st)),
     with_fields (refreshed (captured_stdout p) (captured_stderr p)
                            (result (self st)))
                 (logged (status_cmd (self st)) st)).
Proof. apply update_status_with_named. Qed.

Lemma update_status_unnamed (st : State) :
  truthy (_service_name (self st)) = false ->
  _update_status subprocess_run st
  = (Raise (ValueError DMsg.NO_SERVICE_NAME), st).
Proof. apply update_status_with_unnamed. Qed.

(** The knot between the two methods is tied as in the source. *)
Lemma update_status_unfold (st : State) :
  _update_status subprocess_run st
  = _update_status_with (_run_systemctl subprocess_run) st.
Proof.
  unfold _update_status at 1, _run_systemctl.
  destruct (truthy (_service_name (self st))) eqn:Hname.
  - now rewrite !update_status_with_named.
  - now rewrite !update_status_with_unnamed.
Qed.

(** One command execution on a named object, for every subcommand and
    every way the process can end. *)
Lemma run_systemctl_named (arg : string) (st : State) :
  truthy (_service_name (self st)) = true ->
  let cmd := command arg (self st) in
  let p := subprocess_run (calls (world st)) cmd (_timeout (self st)) in
  let st1 := stored (captured_stdout p) (captured_stderr p) (logged cmd st) in
  _run_systemctl subprocess_run arg st
  = match p with
    | CompletedProcess _ _ returncode =>
        if follow_up arg
        then (after_refresh (fst (_update_status subprocess_run st1))
                            returncode,
              snd (_update_status subprocess_run st1))
        else (Return returncode, st1)
    | _ => (Return (ExitCode.value ExitCode.ERROR), st1)
    end.
Proof.
  intros Hname cmd p st1.
  unfold _run_systemctl, _run_systemctl_with. run_monad.
  match goal with |- context [subprocess_run ?a ?b ?c] =>
    change (subprocess_run a b c) with p end.
  subst st1. destruct p as [out err rc| |e]; try reflexivity.
  unfold follow_up, captured_stdout, captured_stderr.
  destruct (String.eqb arg DSystemCtl.ENABLE
            || String.eqb arg DSystemCtl.DISABLE);
    [|reflexivity].
  set (st1 := stored out err (logged cmd st)).
  match goal with |- context [_update_status subprocess_run ?x] =>
    change x with st1 end.
  destruct (_update_status subprocess_run st1) as [[[]|e] st']; reflexivity.
Qed.

End Internals.

(** ** How a refresh ends *)

Section RefreshAnswer.

Lemma refresh_answer_not_found (out err : string) (r : Result) :
  str_in DMsg.NOT_FOUND err = true -> refresh_answer out err r = Return tt.
Proof. intros H. unfold refresh_answer. now rewrite H. Qed.

(** A refresh raises only in one way: [int] on more digits than it reads,
    captured while active is [True]. *)
Lemma refresh_answer_raise (out err : string) (r : Result) (e : exn) :
  refresh_answer out err r = Raise e ->
  exists d,
    pid_digits out = Some d
    /\ e = ValueError (int_error d)
    /\ (int_max_str_digits < String.length d)%nat
    /\ str_in DMsg.NOT_FOUND err = false
    /\ active_after out (ACTIVE r) = Some true.
Proof.
  unfold refresh_answer, pid_digits.
  destruct (str_in DMsg.NOT_FOUND err); [discriminate|].
  destruct (Re.search Pattern.main_pid out) as [m|] eqn:Hm; [|discriminate].
  destruct (active_after out (ACTIVE r)) as [[|]|]; try discriminate.
  destruct (main_pid_group_digits _ _ Hm) as (d & Hg & Hne & Hd).
  rewrite Hg. destruct (int d) as [n|] eqn:Hi; [discriminate|].
  intros [= <-]. exists d. repeat split.
  destruct (Nat.le_gt_cases (String.length d) int_max_str_digits)
    as [Hle | Hgt]; [|exact Hgt].
  destruct (int_short_digits d Hd Hne Hle) as (n & Hn). congruence.
Qed.

Lemma refresh_answer_short (out err : string) (r : Result) :
  pid_too_long out = false -> refresh_answer out err r = Return tt.
Proof.
  intros H. destruct (refresh_answer out err r) as [[]|e] eqn:Ha;
    [reflexivity|].
  apply refresh_answer_raise in Ha.
  destruct Ha as (d & Hd & _ & Hlen & _).
  unfold pid_too_long in H. rewrite Hd in H.
  apply Nat.ltb_ge in H. lia.
Qed.

End RefreshAnswer.

(** ** The status refresh *)

Section Refresh.

Variable subprocess_run : list Cmd -> Cmd -> Z -> Outcome.

(** C1. When the stderr captured by the status query of a refresh contains
    "could not be found", the refresh sets active, pid and enabled to
    [None] and reads nothing from stdout: the state it leaves is written
    out below and holds stdout only as the raw stream. After it
    [running()], which refreshes again by itself, [enabled()] and [pid()]
    all return [None]. *)
Theorem not_found_clears_status (st : State) :
  truthy (_service_name (self st)) = true ->
  str_in DMsg.NOT_FOUND (captured_stderr (status_outcome subprocess_run st))
  = true ->
  let p := status_outcome subprocess_run st in
  let st' :=
    with_fields
      (mk_result None None None (captured_stdout p) (captured_stderr p))
      (logged (status_cmd (self st)) st) in
  _update_status subprocess_run st = (Return tt, st')
  /\ running subprocess_run st = (Return None, st')
  /\ enabled st' = (Return None, st')
  /\ pid st' = (Return None, st').
Proof.
  intros Hname Hnf p st'.
  assert (_update_status subprocess_run st = (Return tt, st')) as Hu.
  { rewrite (update_status_named subprocess_run st Hname).
    fold p in Hnf |- *.
    rewrite (refresh_answer_not_found _ _ _ Hnf).
    unfold refreshed. now rewrite Hnf. }
  split; [exact Hu|].
  split; [|split; reflexivity].
  unfold running. unfold mbind, M_bind, bind. now rewrite Hu.
Qed.

(** C5. In a refresh whose stderr does not contain "could not be found",
    the three patterns for the active state are tried in a fixed order
    and the first that matches decides: active (running) gives [True];
    failing that, Main PID ... (code=exited) gives [False]; failing that,
    inactive (dead) gives [False]; when none matches, active keeps the
    value it had. This is the value of active in the state the refresh
    leaves, whether it returns or [int] raises later in it. *)
Theorem active_branches_in_priority (st : State) :
  truthy (_service_name (self st)) = true ->
  str_in DMsg.NOT_FOUND (captured_stderr (status_outcome subprocess_run st))
  = false ->
  let out := captured_stdout (status_outcome subprocess_run st) in
  let running_found := Re.matched (Re.search Pattern.active_running out) in
  let exited_found := Re.matched (Re.search Pattern.main_pid_exited out) in
  let dead_found := Re.matched (Re.search Pattern.inactive_dead out) in
  exists r st',
    _update_status subprocess_run st = (r, st')
    /\ (running_found = true -> ACTIVE (result (self st')) = Some true)
    /\ (running_found = false -> exited_found = true ->
        ACTIVE (result (self st')) = Some false)
    /\ (running_found = false -> exited_found = false ->
        dead_found = true -> ACTIVE (result (self st')) = Some false)
    /\ (running_found = false -> exited_found = false ->
        dead_found = false ->
        ACTIVE (result (self st')) = ACTIVE (result (self st))).
Proof.
  intros Hname Hnf out running_found exited_found dead_found.
  do 2 eexists.
  split; [apply (update_status_named subprocess_run st Hname)|].
  unfold refreshed. rewrite Hnf. cbn [with_fields self result ACTIVE].
  unfold active_after. fold out running_found exited_found dead_found.
  repeat split; intros; repeat
    match goal with H : _ = _ |- _ => rewrite H; clear H end; reflexivity.
Qed.


End Refresh.

(** ** Renaming *)

Section Renaming.

Variable subprocess_run : list Cmd -> Cmd -> Z -> Outcome.

Lemma service_name_kept_value (name : option string) (st : State) :
  truthy name = false \/ name = _service_name (self st) ->
  service_name subprocess_run name st
  = (Return (_service_name (self st)), st).
Proof.
  intros H. unfold service_name.
  unfold mbind at 1, M_bind at 1, bind at 1, gets at 1.
  destruct (truthy name) eqn:Hname.
  - destruct H as [H | ->]; [discriminate|].
    rewrite bool_decide_eq_true_2 by reflexivity.
    destruct st as [[r n t] w]. reflexivity.
  - destruct st as [[r n t] w]. reflexivity.
Qed.

(** A new name is stored, then the status refreshed under it; the new name
    is returned unless that refresh raises. *)
Lemma service_name_new_value (name : string) (st : State) :
  truthy (Some name) = true ->
  Some name <> _service_name (self st) ->
  service_name subprocess_run (Some name) st
  = (after_refresh (fst (_update_status subprocess_run (renamed name st)))
                   (Some name),
     snd (_update_status subprocess_run (renamed name st))).
Proof.
  intros Hnew Hdiff.
  assert (truthy (_service_name (self (renamed name st))) = true) as Hn
      by exact Hnew.
  pose proof (update_status_named subprocess_run _ Hn) as Hu.
  cbv zeta in Hu.
  unfold service_name.
  unfold mbind at 1, M_bind at 1, bind at 1, gets at 1.
  rewrite Hnew.
  rewrite bool_decide_eq_false_2 by exact Hdiff. cbn [negb].
  unfold mbind at 1 2, M_bind at 1 2, bind at 1 2, set_service_name,
    modify_self.
  fold (renamed name st). rewrite Hu. cbn [fst snd].
  destruct (refresh_answer _ _ _) as [[]|e]; reflexivity.
Qed.

End Renaming.

(** ** The public methods *)

Section Methods.

Variable subprocess_run : list Cmd -> Cmd -> Z -> Outcome.

(** C3, as the code has it. On an object with a name, [service_name] called
    with a non-empty name other than the current one stores the new name
    and refreshes the status under it: one [systemctl status <new name>] is
    run. When that refresh returns, as it does unless it reads more than
    4300 digits after Main PID, the call returns the new name, the one the
    object holds after the call; when the refresh raises, so does the
    call. *)
Theorem service_name_set_returns_new (st : State) (name : string) :
  truthy (_service_name (self st)) = true ->
  truthy (Some name) = true ->
  Some name <> _service_name (self st) ->
  exists r st',
    _update_status subprocess_run (renamed name st) = (r, st')
    /\ service_name subprocess_run (Some name) st
       = (after_refresh r (Some name), st')
    /\ _service_name (self st') = Some name
    /\ calls (world st')
       = calls (world st)
           ++ [[Some SYSTEMCTL; Some DSystemCtl.STATUS; Some name]]
    /\ (pid_too_long
          (captured_stdout (status_outcome subprocess_run (renamed name st)))
        = false ->
        service_name subprocess_run (Some name) st
        = (Return (Some name), st')).
Proof.
  intros _ Hnew Hdiff.
  assert (truthy (_service_name (self (renamed name st))) = true) as Hn
      by exact Hnew.
  pose proof (update_status_named subprocess_run _ Hn) as Hu.
  cbv zeta in Hu.
  pose proof (service_name_new_value subprocess_run name st Hnew Hdiff) as Hs.
  rewrite Hu in Hs. cbn [fst snd] in Hs.
  do 2 eexists. split; [exact Hu|]. split; [exact Hs|].
  split; [reflexivity|]. split; [reflexivity|].
  intros Hshort. rewrite Hs.
  now rewrite (refresh_answer_short _ _ _ Hshort).
Qed.

(** C9. [service_name] called with the current name, with an empty name or
    with [None] changes nothing at all: no command is run, no refresh is
    made, the status record stays as it is, and the current name is
    returned. *)
Theorem service_name_same_or_empty_is_noop
        (st : State) (name : option string) :
  truthy name = false \/ name = _service_name (self st) ->
  service_name subprocess_run name st
  = (Return (_service_name (self st)), st).
Proof.
  intros H. unfold service_name.
  unfold mbind at 1, M_bind at 1, bind at 1, gets at 1.
  destruct (truthy name) eqn:Hname.
  - destruct H as [H | ->]; [discriminate|].
    rewrite bool_decide_eq_true_2 by reflexivity.
    destruct st as [[r n t] w]. reflexivity.
  - destruct st as [[r n t] w]. reflexivity.
Qed.

(** C8. On an object without a name, [start], [stop], [restart], [enable]
    and [disable] each raise the error for a missing name and leave the
    whole state as it was: no command is run and the status record is
    untouched. *)
Theorem commands_need_a_name (st : State) :
  truthy (_service_name (self st)) = false ->
  let refused := (@Raise Z (ValueError DMsg.NO_SERVICE_NAME), st) in
  start subprocess_run st = refused
  /\ stop subprocess_run st = refused
  /\ restart subprocess_run st = refused
  /\ enable subprocess_run st = refused
  /\ disable subprocess_run st = refused.
Proof.
  intros Hname refused.
  unfold start, stop, restart, enable, disable.
  unfold mbind, M_bind, bind, gets.
  rewrite Hname. repeat split; reflexivity.
Qed.

End Methods.

(** ** Command execution *)

Section Execution.

Variable subprocess_run : list Cmd -> Cmd -> Z -> Outcome.

Lemma refreshed_raw (out err : string) (r : Result) :
  RAW_STDOUT (refreshed out err r) = out
  /\ RAW_STDERR (refreshed out err r) = err.
Proof. unfold refreshed. destruct (str_in _ _); split; reflexivity. Qed.

(** C7, as the code has it. One command execution on a named object. When
    the process times out, stdout is stored as the empty text, stderr as
    the fixed timeout message, and 5 is returned. When running it fails in
    another way, stdout is stored as the empty text, stderr as the text of
    the failure, and 5 is returned. When it completes, both streams are
    stored as they came; for a subcommand other than [enable] and
    [disable] the return code of the process is returned; for those two
    the refresh that follows runs from the state with the streams stored,
    and the return code is returned when that refresh returns, as it does
    unless it reads more than 4300 digits after Main PID, while the
    [ValueError] of the refresh is raised otherwise. *)
Theorem command_execution_outcomes (arg : string) (st : State) :
  truthy (_service_name (self st)) = true ->
  let cmd := command arg (self st) in
  let p := subprocess_run (calls (world st)) cmd (_timeout (self st)) in
  (p = TimeoutExpired ->
   _run_systemctl subprocess_run arg st
   = (Return 5, stored "" "systemctl timed out" (logged cmd st)))
  /\ (forall str_e, p = OtherException str_e ->
      _run_systemctl subprocess_run arg st
      = (Return 5, stored "" str_e (logged cmd st)))
  /\ (forall out err returncode, p = CompletedProcess out err returncode ->
      let st1 := stored out err (logged cmd st) in
      (follow_up arg = false ->
       _run_systemctl subprocess_run arg st = (Return returncode, st1))
      /\ (follow_up arg = true ->
          exists r st',
            _update_status subprocess_run st1 = (r, st')
            /\ _run_systemctl subprocess_run arg st
               = (after_refresh r returncode, st')
            /\ (pid_too_long
                  (captured_stdout (status_outcome subprocess_run st1))
                = false ->
                _run_systemctl subprocess_run arg st
                = (Return returncode, st')))).
Proof.
  intros Hname cmd p.
  pose proof (run_systemctl_named subprocess_run arg st Hname) as H.
  cbv zeta in H. fold cmd in H. fold p in H.
  split; [|split].
  - intros Hp. rewrite H, Hp. reflexivity.
  - intros str_e Hp. rewrite H, Hp. reflexivity.
  - intros out err returncode Hp st1. rewrite H, Hp.
    cbn [captured_stdout captured_stderr]. fold st1. split.
    + intros ->. reflexivity.
    + intros ->.
      assert (truthy (_service_name (self st1)) = true) as H1 by exact Hname.
      pose proof (update_status_named subprocess_run st1 H1) as Hu.
      cbv zeta in Hu. rewrite Hu. cbn [fst snd].
      do 2 eexists. split; [reflexivity|]. split; [reflexivity|].
      intros Hshort. now rewrite (refresh_answer_short _ _ _ Hshort).
Qed.

(** C10, as the code has it. [enable()] and [disable()] on a named object.
    When the process completes, the status is refreshed afterwards: a
    status query is the second command run and the raw streams end up as
    those captured from that status query, not those of the command
    itself. The caller gets the return code of the [enable] or [disable]
    process when that refresh returns, as it does unless it reads more than
    4300 digits after Main PID; otherwise the caller gets the [ValueError]
    of the refresh. When the process times out or cannot be run, nothing
    follows: only the one command was run, 5 is returned, and active, pid
    and enabled are as before. *)
Theorem enable_disable_then_refresh
        (call : M Z) (arg : string) (st : State) :
  In (call, arg)
     [(enable subprocess_run, DSystemCtl.ENABLE);
      (disable subprocess_run, DSystemCtl.DISABLE)] ->
  truthy (_service_name (self st)) = true ->
  let cmd := sudo_cmd arg (self st) in
  let p := subprocess_run (calls (world st)) cmd (_timeout (self st)) in
  (forall out err returncode, p = CompletedProcess out err returncode ->
   let st1 := stored out err (logged cmd st) in
   let q := status_outcome subprocess_run st1 in
   exists r st',
     call st = (after_refresh r returncode, st')
     /\ _update_status subprocess_run st1 = (r, st')
     /\ calls (world st') = calls (world st) ++ [cmd; status_cmd (self st)]
     /\ RAW_STDOUT (result (self st')) = captured_stdout q
     /\ RAW_STDERR (result (self st')) = captured_stderr q
     /\ (pid_too_long (captured_stdout q) = false ->
         call st = (Return returncode, st')))
  /\ (p = TimeoutExpired \/ (exists str_e, p = OtherException str_e) ->
      exists st',
        call st = (Return 5, st')
        /\ calls (world st') = calls (world st) ++ [cmd]
        /\ ACTIVE (result (self st')) = ACTIVE (result (self st))
        /\ PID (result (self st')) = PID (result (self st))
        /\ ENABLED (result (self st')) = ENABLED (result (self st))).
Proof.
  intros Hin Hname cmd p.
  assert (call st = _run_systemctl subprocess_run arg st
          /\ command arg (self st) = cmd /\ follow_up arg = true)
    as (Hcall & Hcmd & Hfollow).
  { destruct Hin as [[= <- <-] | [[= <- <-] | []]];
      (split; [|split; reflexivity]).
    - unfold enable, mbind, M_bind, bind, gets. now rewrite Hname.
    - unfold disable, mbind, M_bind, bind, gets. now rewrite Hname. }
  pose proof (run_systemctl_named subprocess_run arg st Hname) as H.
  cbv zeta in H. rewrite Hcmd, Hfollow in H. fold p in H.
  rewrite Hcall, H. split.
  - intros out err returncode Hp st1 q. rewrite Hp.
    assert (truthy (_service_name (self st1)) = true) as H1 by exact Hname.
    pose proof (update_status_named subprocess_run st1 H1) as Hu.
    cbv zeta in Hu. fold q in Hu.
    cbn [captured_stdout captured_stderr]. fold st1. rewrite Hu.
    cbn [fst snd].
    do 2 eexists. split; [reflexivity|]. split; [reflexivity|].
    cbn [with_fields logged world calls self result].
    destruct (refreshed_raw (captured_stdout q) (captured_stderr q)
                            (result (self st1))) as [Ho He].
    rewrite Ho, He. split.
    { change (calls (world st1)) with (calls (world st) ++ [cmd]).
      now rewrite <- app_assoc. }
    split; [reflexivity|]. split; [reflexivity|].
    intros Hshort. now rewrite (refresh_answer_short _ _ _ Hshort).
  - intros [Hp | [str_e Hp]]; rewrite Hp; eexists; repeat split; reflexivity.
Qed.

End Execution.

(** ** Construction, and a service that stops *)

Transparent Pattern.active_running Pattern.main_pid_exited
  Pattern.inactive_dead Pattern.loaded_enabled Pattern.loaded_disabled
  Pattern.main_pid DMsg.NOT_FOUND.

Section Construction.

Variable subprocess_run : list Cmd -> Cmd -> Z -> Outcome.
Variables SYSTEMD_COLORS SYSTEMD_PAGER : string.

(** C4, what the code does. [SystemCtl()], with no name given, does not
    return an object: the refresh at the end of [__init__] raises the
    error for a missing name, after the two environment variables were
    written and before any command is run. *)
Theorem construction_without_name_raises (w : World) :
  new subprocess_run SYSTEMD_COLORS SYSTEMD_PAGER None w
  = (Raise (ValueError "service name not specified"),
     quiet SYSTEMD_COLORS SYSTEMD_PAGER w).
Proof.
  unfold new, __init__.
  cbv [mbind M_bind bind setenv modify_world modify_self set_service_name
       set_timeout self world result _service_name _timeout environ calls
       blank].
  rewrite update_status_unnamed by reflexivity. reflexivity.
Qed.

End Construction.

(** C2, what the code does. A service found running with pid 1234 when the
    object is built, and found stopped by the next [running()], leaves an
    object whose active is [False] and whose pid is still 1234: a state
    reached through the constructor and one method in which pid is set
    while active is not [True]. *)
Theorem stale_pid_after_stop :
  exists o w st,
    new Example.stops "SYSTEMD_COLORS" "SYSTEMD_PAGER" (Some "nginx")
        Example.world0 = (Return o, w)
    /\ ACTIVE (result o) = Some true
    /\ PID (result o) = Some 1234
    /\ running Example.stops (mk_state o w) = (Return (Some false), st)
    /\ ACTIVE (result (self st)) = Some false
    /\ PID (result (self st)) = Some 1234
    /\ ~ pid_only_when_active (result (self st)).
Proof.
  eexists _, _, _.
  split; [vm_compute; reflexivity|].
  split; [reflexivity|]. split; [reflexivity|].
  split; [vm_compute; reflexivity|].
  split; [reflexivity|]. split; [reflexivity|].
  intros H. cbv in H.
  assert (Some 1234 <> None :> option Z) as Hne by discriminate.
  specialize (H Hne). discriminate H.
Qed.

(** ** The sample texts, run *)

(** "Active: active (running) since ..." followed by "  Main PID: 1234
    (nginx)" refreshes to active [True] and pid 1234. *)
Example refresh_running_text :
  let st :=
    snd (_update_status Example.stops (Example.handle (Some "nginx"))) in
  ACTIVE (result (self st)) = Some true /\ PID (result (self st)) = Some 1234.
Proof. split; vm_compute; reflexivity. Qed.

(** The pattern for an exited main process wants "(code=exited)" closed at
    once; "(code=exited, status=0/SUCCESS)" is not matched by it. *)
Example exited_pattern_is_literal :
  Re.matched (Re.search Pattern.main_pid_exited "  Main PID: 77 (code=exited)")
  = true
  /\ Re.matched
       (Re.search Pattern.main_pid_exited
                  "  Main PID: 77 (code=exited, status=0/SUCCESS)")
     = false.
Proof. split; vm_compute; reflexivity. Qed.

(** [^] is tried at the start of every line, and [\s*] after it may run
    over line ends. *)
Example main_pid_on_a_later_line :
  Re.search Pattern.main_pid
            (String Re.newline (String Re.newline "   Main PID:  42 (x)"))
  = Some (Re.mk_match (Some "42"))
  /\ Re.search Pattern.main_pid "the Main PID: 42" = None.
Proof. split; vm_compute; reflexivity. Qed.

(** ** The theorems at sample inputs *)

Lemma not_found_clears_status_witness :
  truthy (_service_name (self (Example.handle (Some "nginx")))) = true
  /\ str_in DMsg.NOT_FOUND
       (captured_stderr
          (status_outcome Example.missing (Example.handle (Some "nginx"))))
     = true
  /\ fst (running Example.missing (Example.handle (Some "nginx")))
     = Return None.
Proof.
  split; [reflexivity|]. split; [reflexivity|].
  destruct (not_found_clears_status
              Example.missing (Example.handle (Some "nginx"))
              eq_refl eq_refl) as (_ & H & _).
  rewrite H. reflexivity.
Defined.

Lemma active_branches_in_priority_witness :
  truthy (_service_name (self (Example.handle (Some "nginx")))) = true
  /\ str_in DMsg.NOT_FOUND
       (captured_stderr
          (status_outcome Example.stops (Example.handle (Some "nginx"))))
     = false
  /\ exists st',
      _update_status Example.stops (Example.handle (Some "nginx"))
      = (Return tt, st')
      /\ ACTIVE (result (self st')) = Some true.
Proof.
  split; [reflexivity|]. split; [reflexivity|].
  destruct (active_branches_in_priority
              Example.stops (Example.handle (Some "nginx"))
              eq_refl eq_refl) as (r & st' & Hu & H1 & _).
  exists st'. split; [|apply H1; reflexivity].
  rewrite Hu. f_equal.
  pose proof (f_equal fst Hu) as Hr. cbn [fst] in Hr. rewrite <- Hr.
  vm_compute. reflexivity.
Defined.



(** C3 with "returns the previous name" fails: renaming "nginx" to "sshd"
    returns "sshd", not the name held before the call. *)
Lemma service_name_returns_previous_counterexample :
  truthy (_service_name (self (Example.handle (Some "nginx")))) = true
  /\ truthy (Some "sshd") = true
  /\ Some "sshd" <> _service_name (self (Example.handle (Some "nginx")))
  /\ fst (service_name Example.healthy (Some "sshd")
                       (Example.handle (Some "nginx")))
     = Return (Some "sshd")
  /\ fst (service_name Example.healthy (Some "sshd")
                       (Example.handle (Some "nginx")))
     <> Return (_service_name (self (Example.handle (Some "nginx")))).
Proof.
  split; [reflexivity|]. split; [reflexivity|].
  split; [discriminate|].
  split; [vm_compute; reflexivity|].
  vm_compute. discriminate.
Qed.

Lemma service_name_set_returns_new_witness :
  truthy (_service_name (self (Example.handle (Some "nginx")))) = true
  /\ truthy (Some "sshd") = true
  /\ Some "sshd" <> _service_name (self (Example.handle (Some "nginx")))
  /\ exists st',
      service_name Example.healthy (Some "sshd") (Example.handle (Some "nginx"))
      = (Return (Some "sshd"), st')
      /\ calls (world st') = [[Some "systemctl"; Some "status"; Some "sshd"]].
Proof.
  split; [reflexivity|]. split; [reflexivity|].
  assert (Some "sshd" <> _service_name (self (Example.handle (Some "nginx"))))
    as Hdiff by discriminate.
  split; [exact Hdiff|].
  destruct (service_name_set_returns_new
              Example.healthy (Example.handle (Some "nginx")) "sshd"
              eq_refl eq_refl Hdiff) as (r & st' & _ & _ & _ & Hc & Hs).
  exists st'. split; [|exact Hc].
  apply Hs. vm_compute. reflexivity.
Defined.

Lemma service_name_same_or_empty_is_noop_witness :
  (truthy (Some "") = false
   \/ Some "" = _service_name (self (Example.handle (Some "nginx"))))
  /\ service_name Example.healthy (Some "") (Example.handle (Some "nginx"))
     = (Return (Some "nginx"), Example.handle (Some "nginx")).
Proof.
  split; [left; reflexivity|].
  apply (service_name_same_or_empty_is_noop
           Example.healthy (Example.handle (Some "nginx")) (Some "")).
  left; reflexivity.
Defined.

Lemma commands_need_a_name_witness :
  truthy (_service_name (self (Example.handle None))) = false
  /\ start Example.healthy (Example.handle None)
     = (Raise (ValueError "service name not specified"), Example.handle None).
Proof.
  split; [reflexivity|].
  destruct (commands_need_a_name Example.healthy (Example.handle None) eq_refl)
    as (H & _).
  exact H.
Defined.

Lemma command_execution_outcomes_witness :
  truthy (_service_name (self (Example.handle (Some "nginx")))) = true
  /\ _run_systemctl Example.hangs "restart" (Example.handle (Some "nginx"))
     = (Return 5,
        stored "" "systemctl timed out"
               (logged [Some "sudo"; Some "systemctl"; Some "restart";
                        Some "nginx"]
                       (Example.handle (Some "nginx")))).
Proof.
  split; [reflexivity|].
  destruct (command_execution_outcomes
              Example.hangs "restart" (Example.handle (Some "nginx")) eq_refl)
    as (H & _ & _).
  apply H. reflexivity.
Defined.

(** C7 with "on success it returns the exit code of the process" fails:
    [sudo systemctl enable nginx] completes with return code 0, the status
    text read next carries 4301 digits after Main PID, and the execution
    raises instead of returning 0. *)
Lemma command_execution_raises_counterexample :
  truthy (_service_name (self (Example.handle (Some "nginx")))) = true
  /\ Example.long_pid
       (calls (world (Example.handle (Some "nginx"))))
       (command "enable" (self (Example.handle (Some "nginx"))))
       (_timeout (self (Example.handle (Some "nginx"))))
     = CompletedProcess Example.long_pid_text "" 0
  /\ fst (_run_systemctl Example.long_pid "enable"
                         (Example.handle (Some "nginx")))
     <> Return 0.
Proof.
  split; [reflexivity|]. split; [reflexivity|].
  vm_compute. discriminate.
Qed.

Lemma enable_disable_then_refresh_witness :
  In (enable Example.healthy, DSystemCtl.ENABLE)
     [(enable Example.healthy, DSystemCtl.ENABLE);
      (disable Example.healthy, DSystemCtl.DISABLE)]
  /\ truthy (_service_name (self (Example.handle (Some "nginx")))) = true
  /\ exists st',
      enable Example.healthy (Example.handle (Some "nginx")) = (Return 1, st')
      /\ calls (world st')
         = [[Some "sudo"; Some "systemctl"; Some "enable"; Some "nginx"];
            [Some "systemctl"; Some "status"; Some "nginx"]].
Proof.
  split; [left; reflexivity|]. split; [reflexivity|].
  destruct (enable_disable_then_refresh
              Example.healthy (enable Example.healthy) DSystemCtl.ENABLE
              (Example.handle (Some "nginx"))
              (or_introl eq_refl) eq_refl) as [H _].
  destruct (H _ _ _ eq_refl) as (r & st' & _ & _ & Hl & _ & _ & Hc).
  exists st'. split; [|exact Hl].
  apply Hc. vm_compute. reflexivity.
Defined.

(** C10 with "the value returned to the caller is the exit code of the
    enable/disable process" fails: [disable()] whose process completes with
    return code 0 and whose follow-up status text carries 4301 digits after
    Main PID returns nothing; the [ValueError] of the refresh reaches the
    caller. *)
Lemma disable_raises_counterexample :
  truthy (_service_name (self (Example.handle (Some "nginx")))) = true
  /\ Example.long_pid
       (calls (world (Example.handle (Some "nginx"))))
       (sudo_cmd "disable" (self (Example.handle (Some "nginx"))))
       (_timeout (self (Example.handle (Some "nginx"))))
     = CompletedProcess Example.long_pid_text "" 0
  /\ fst (disable Example.long_pid (Example.handle (Some "nginx")))
     <> Return 0.
Proof.
  split; [reflexivity|]. split; [reflexivity|].
  vm_compute. discriminate.
Qed.


(** * Further properties of the class *)

(** ** Timeout, cached readers and the commands that do not refresh *)

Section Readers.

Variable subprocess_run : list Cmd -> Cmd -> Z -> Outcome.

(** X1. [timeout(t)] stores [t] and returns it, a later [timeout()] reads
    it back, nothing else of the object or the world changes, and the next
    command execution hands exactly [t] to [subprocess.run]: what it
    returns is the return code of the process run with timeout [t], or 5,
    unless the refresh after [enable] or [disable] raises. *)
Theorem timeout_set_then_used (t : Z) (arg : string) (st : State) :
  truthy (_service_name (self st)) = true ->
  exists st1,
    timeout (Some t) st = (Return t, st1)
    /\ timeout None st1 = (Return t, st1)
    /\ result (self st1) = result (self st)
    /\ _service_name (self st1) = _service_name (self st)
    /\ world st1 = world st
    /\ exists r,
        fst (_run_systemctl subprocess_run arg st1)
        = after_refresh
            r (exit_code
                 (subprocess_run (calls (world st)) (command arg (self st)) t))
        /\ (follow_up arg = false -> r = Return tt).
Proof.
  intros Hname.
  eexists. split; [reflexivity|].
  split; [reflexivity|].
  do 3 (split; [reflexivity|]).
  match goal with |- context [_run_systemctl subprocess_run arg ?s] =>
    set (st1 := s) end.
  assert (truthy (_service_name (self st1)) = true) as H1 by exact Hname.
  rewrite (run_systemctl_named subprocess_run arg st1 H1). cbv zeta.
  change (subprocess_run (calls (world st1)) (command arg (self st1))
                         (_timeout (self st1)))
    with (subprocess_run (calls (world st)) (command arg (self st)) t).
  destruct (subprocess_run (calls (world st)) (command arg (self st)) t)
    as [out err rc| |e].
  - destruct (follow_up arg).
    + eexists. split; [reflexivity | discriminate].
    + exists (Return tt). split; reflexivity.
  - exists (Return tt). split; reflexivity.
  - exists (Return tt). split; reflexivity.
Qed.

Lemma str_in_nonempty (needle hay : string) :
  needle <> "" -> str_in needle hay = true -> hay <> "".
Proof.
  intros Hn H ->. destruct needle; [congruence|]. discriminate H.
Qed.

(** X2. After a refresh of a named object, whether it returned or raised
    at [int], [installed()] is [True] exactly when the stderr captured from
    that status query is empty. So a unit reported as "could not be found"
    is not installed, and neither is any unit whose status query timed
    out. *)
Theorem installed_after_refresh (st : State) :
  truthy (_service_name (self st)) = true ->
  let p := status_outcome subprocess_run st in
  exists r st',
    _update_status subprocess_run st = (r, st')
    /\ installed st' = (Return (String.eqb (captured_stderr p) ""), st')
    /\ (str_in DMsg.NOT_FOUND (captured_stderr p) = true ->
        installed st' = (Return false, st'))
    /\ (p = TimeoutExpired -> installed st' = (Return false, st')).
Proof.
  intros Hname p.
  do 2 eexists.
  split; [apply (update_status_named subprocess_run st Hname)|].
  fold p.
  assert (forall st0 : State,
             installed st0
             = (Return (String.eqb (RAW_STDERR (result (self st0))) ""), st0))
    as Hi.
  { intros st0. unfold installed, mbind, M_bind, bind, stderr, gets.
    destruct (RAW_STDERR (result (self st0))); reflexivity. }
  rewrite Hi. cbn [with_fields self result].
  destruct (refreshed_raw (captured_stdout p) (captured_stderr p)
                          (result (self st))) as [_ He].
  rewrite He. split; [reflexivity|]. split.
  - intros Hnf. apply str_in_nonempty in Hnf; [|discriminate].
    destruct (captured_stderr p); [congruence | reflexivity].
  - intros Hp. rewrite Hp. reflexivity.
Qed.

(** X3. In a refresh whose stderr does not contain "could not be found",
    enabled is decided by two patterns tried in order: a "Loaded: ...;
    enabled;" gives [True]; failing that, a "Loaded: ...; disabled;" gives
    [False]; when neither is found, enabled keeps the value it had. A text
    with both reads as enabled. This is what [enabled()] returns in the
    state the refresh leaves, whether it returned or raised at [int]. *)
Theorem enabled_branches_in_priority (st : State) :
  truthy (_service_name (self st)) = true ->
  str_in DMsg.NOT_FOUND (captured_stderr (status_outcome subprocess_run st))
  = false ->
  let out := captured_stdout (status_outcome subprocess_run st) in
  let enabled_found := Re.matched (Re.search Pattern.loaded_enabled out) in
  let disabled_found := Re.matched (Re.search Pattern.loaded_disabled out) in
  exists r st',
    _update_status subprocess_run st = (r, st')
    /\ (enabled_found = true -> enabled st' = (Return (Some true), st'))
    /\ (enabled_found = false -> disabled_found = true ->
        enabled st' = (Return (Some false), st'))
    /\ (enabled_found = false -> disabled_found = false ->
        enabled st' = (Return (ENABLED (result (self st))), st')).
Proof.
  intros Hname Hnf out enabled_found disabled_found.
  do 2 eexists.
  split; [apply (update_status_named subprocess_run st Hname)|].
  unfold enabled, gets, refreshed. rewrite Hnf.
  cbn [with_fields self result ENABLED].
  unfold enabled_after. fold out enabled_found disabled_found.
  repeat split; intros; repeat
    match goal with H : _ = _ |- _ => rewrite H; clear H end; reflexivity.
Qed.

(** X4. [start()], [stop()] and [restart()] on a named object run one
    command, [sudo systemctl <subcommand> <name>], and do not refresh:
    active, pid and enabled stay as they were, whatever the command did to
    the service. The raw streams become those of the command, so
    [installed()] now answers for the stderr of that command, and the
    return value is the return code of the process, or 5. *)
Theorem start_stop_restart_run_once (call : M Z) (arg : string) (st : State) :
  In (call, arg)
     [(start subprocess_run, DSystemCtl.START);
      (stop subprocess_run, DSystemCtl.STOP);
      (restart subprocess_run, DSystemCtl.RESTART)] ->
  truthy (_service_name (self st)) = true ->
  let cmd := sudo_cmd arg (self st) in
  let p := subprocess_run (calls (world st)) cmd (_timeout (self st)) in
  exists st',
    call st = (Return (exit_code p), st')
    /\ calls (world st') = calls (world st) ++ [cmd]
    /\ ACTIVE (result (self st')) = ACTIVE (result (self st))
    /\ PID (result (self st')) = PID (result (self st))
    /\ ENABLED (result (self st')) = ENABLED (result (self st))
    /\ stdout st' = (Return (captured_stdout p), st')
    /\ stderr st' = (Return (captured_stderr p), st')
    /\ installed st' = (Return (String.eqb (captured_stderr p) ""), st').
Proof.
  intros Hin Hname cmd p.
  assert (call st = _run_systemctl subprocess_run arg st
          /\ command arg (self st) = cmd /\ follow_up arg = false)
    as (Hcall & Hcmd & Hfollow).
  { destruct Hin as [[= <- <-] | [[= <- <-] | [[= <- <-] | []]]];
      (split; [|split; reflexivity]).
    - unfold start, mbind, M_bind, bind, gets. now rewrite Hname.
    - unfold stop, mbind, M_bind, bind, gets. now rewrite Hname.
    - unfold restart, mbind, M_bind, bind, gets. now rewrite Hname. }
  pose proof (run_systemctl_named subprocess_run arg st Hname) as H.
  cbv zeta in H. rewrite Hcmd, Hfollow in H. fold p in H.
  exists (stored (captured_stdout p) (captured_stderr p) (logged cmd st)).
  split. { rewrite Hcall, H. now destruct p. }
  do 6 (split; [reflexivity|]).
  unfold installed, mbind, M_bind, bind, stderr, gets.
  cbn [stored self result RAW_STDERR].
  destruct (captured_stderr p); reflexivity.
Qed.

(** X5. A status query that times out, or that fails with a text in which
    "could not be found" does not occur, changes none of the parsed fields:
    [running()] returns the value active had before, without raising, and
    pid and enabled are as before. *)
Theorem failed_status_query_keeps_fields (st : State) :
  truthy (_service_name (self st)) = true ->
  let p := status_outcome subprocess_run st in
  p = TimeoutExpired
  \/ (exists str_e, p = OtherException str_e
                    /\ str_in DMsg.NOT_FOUND str_e = false) ->
  exists st',
    running subprocess_run st = (Return (ACTIVE (result (self st))), st')
    /\ PID (result (self st')) = PID (result (self st))
    /\ ENABLED (result (self st')) = ENABLED (result (self st)).
Proof.
  intros Hname p Hp.
  pose proof (update_status_named subprocess_run st Hname) as Hu.
  cbv zeta in Hu. fold p in Hu.
  assert (refreshed (captured_stdout p) (captured_stderr p) (result (self st))
          = mk_result (ACTIVE (result (self st))) (PID (result (self st)))
                      (ENABLED (result (self st)))
                      (captured_stdout p) (captured_stderr p)) as Hr.
  { unfold refreshed.
    destruct Hp as [-> | (str_e & -> & Hnf)].
    - reflexivity.
    - cbn [captured_stderr captured_stdout]. rewrite Hnf. reflexivity. }
  assert (refresh_answer (captured_stdout p) (captured_stderr p)
                         (result (self st)) = Return tt) as Ha.
  { apply refresh_answer_short.
    destruct Hp as [-> | (str_e & -> & _)]; reflexivity. }
  rewrite Hr, Ha in Hu.
  eexists. unfold running, mbind, M_bind, bind. rewrite Hu.
  repeat split; reflexivity.
Qed.

End Readers.

(** ** What an object built with a name keeps through every call *)

Section Sessions.

Variable subprocess_run : list Cmd -> Cmd -> Z -> Outcome.

Lemma digit_value_nonneg (c : ascii) :
  Re.is_digit c = true -> 0 <= digit_value c.
Proof.
  unfold Re.is_digit, digit_value. intros H.
  apply andb_true_iff in H. destruct H as [H _].
  apply Nat.leb_le in H. lia.
Qed.

Lemma int_acc_nonneg (s : string) (acc n : Z) :
  0 <= acc -> int_acc acc s = Some n -> 0 <= n.
Proof.
  revert acc. induction s as [|c s' IH]; intros acc Hacc; simpl.
  - intros [= <-]. exact Hacc.
  - destruct (Re.is_digit c) eqn:Hc; [|discriminate].
    apply IH. pose proof (digit_value_nonneg c Hc). lia.
Qed.

Lemma int_nonneg (s : string) (n : Z) : int s = Some n -> 0 <= n.
Proof.
  destruct s; [discriminate|]. unfold int.
  destruct (_ <=? _)%nat; [|discriminate]. apply int_acc_nonneg. lia.
Qed.

Lemma active_after_known (out : string) (before : option bool) :
  before <> None -> active_after out before <> None.
Proof.
  intros H. unfold active_after.
  repeat match goal with |- context [if ?b then _ else _] => destruct b end;
    congruence.
Qed.

Lemma refreshed_keeps (out err : string) (r : Result) :
  pid_known_active r -> pid_nonneg r ->
  pid_known_active (refreshed out err r) /\ pid_nonneg (refreshed out err r).
Proof.
  intros Hk Hn. unfold refreshed, pid_known_active, pid_nonneg.
  destruct (str_in DMsg.NOT_FOUND err); cbn [PID ACTIVE].
  - split; [congruence | discriminate].
  - unfold pid_after.
    destruct (Re.search Pattern.main_pid out) as [m|].
    + destruct (active_after out (ACTIVE r)) as [[|]|] eqn:Ha.
      * split; [discriminate|].
        destruct (Re.group1 m) as [d|]; [|exact Hn].
        destruct (int d) as [k|] eqn:Hi; [|exact Hn].
        intros n [= <-]. exact (int_nonneg d k Hi).
      * split; [discriminate | exact Hn].
      * split; [|exact Hn].
        intros Hp. specialize (Hk Hp).
        apply (active_after_known out) in Hk. congruence.
    + split; [|exact Hn].
      intros Hp. apply active_after_known. exact (Hk Hp).
Qed.

Lemma follows_refl (st : State) : kept st -> follows st st [].
Proof.
  intros H. unfold follows. rewrite app_nil_r. auto.
Qed.

Lemma follows_trans (a b c : State) (l1 l2 : list Cmd) :
  follows a b l1 -> follows b c l2 -> follows a c (l1 ++ l2).
Proof.
  intros (_ & He1 & Hc1 & Hf1) (Hk & He2 & Hc2 & Hf2).
  unfold follows. rewrite forallb_app, Hf1, Hf2, He2, He1, Hc2, Hc1.
  rewrite app_assoc. auto.
Qed.

Lemma status_cmd_ok (o : SystemCtl) :
  forallb cmd_ok [status_cmd o] = truthy (_service_name o).
Proof.
  unfold status_cmd. now destruct (_service_name o) as [[|]|].
Qed.

Lemma only_int_raised_return {A} (a : A) : only_int_raised (Return a).
Proof. intros e H. discriminate. Qed.

Lemma after_refresh_ends {A} (r : res unit) (a : A) :
  only_int_raised r -> only_int_raised (after_refresh r a).
Proof.
  intros H e He. destruct r as [[]|e']; [discriminate|].
  injection He as <-. now apply H.
Qed.

(** A refresh keeps what is kept, and ends well: it returns when the tool
    prints no over-long pid, and raises nothing but the error of [int]. *)
Lemma refresh_follows (st : State) :
  kept st ->
  exists r st',
    _update_status subprocess_run st = (r, st')
    /\ follows st st' [status_cmd (self st)]
    /\ (short_pids subprocess_run -> r = Return tt)
    /\ only_int_raised r.
Proof.
  intros (Hname & Hk & Hn).
  do 2 eexists.
  split; [apply (update_status_named subprocess_run st Hname)|].
  destruct (refreshed_keeps
              (captured_stdout (status_outcome subprocess_run st))
              (captured_stderr (status_outcome subprocess_run st))
              (result (self st)) Hk Hn) as [Hk' Hn'].
  split; [|split].
  - unfold follows, kept. cbn [with_fields logged self world result
                               _service_name environ calls].
    rewrite status_cmd_ok, Hname. repeat split; assumption.
  - intros Hshort. apply refresh_answer_short. apply Hshort.
  - intros e He. apply refresh_answer_raise in He.
    destruct He as (d & _ & -> & Hlen & _). eauto.
Qed.

Lemma stored_follows (arg out err : string) (st : State) :
  kept st ->
  String.eqb arg DSystemCtl.STATUS = false ->
  cmd_ok (sudo_cmd arg (self st)) = true ->
  follows st (stored out err (logged (command arg (self st)) st))
          [sudo_cmd arg (self st)].
Proof.
  intros (Hname & Hk & Hn) Harg Hok.
  unfold follows, kept, command. rewrite Harg.
  cbn [stored logged self world result _service_name environ calls
       forallb].
  rewrite Hok. repeat split; assumption.
Qed.

(** One of the five commands on an object that keeps its properties. *)
Lemma run_follows (arg : string) (st : State) :
  kept st ->
  In arg [DSystemCtl.START; DSystemCtl.STOP; DSystemCtl.RESTART;
          DSystemCtl.ENABLE; DSystemCtl.DISABLE] ->
  exists r st' added,
    _run_systemctl subprocess_run arg st = (r, st')
    /\ follows st st' added
    /\ (short_pids subprocess_run -> exists rc, r = Return rc)
    /\ only_int_raised r.
Proof.
  intros Hkept Hin.
  pose proof Hkept as (Hname & _).
  assert (String.eqb arg DSystemCtl.STATUS = false
          /\ cmd_ok (sudo_cmd arg (self st)) = true) as [Harg Hok].
  { unfold sudo_cmd.
    destruct Hin as [<- | [<- | [<- | [<- | [<- | []]]]]];
      (split; [reflexivity|]); cbn; now rewrite Hname. }
  rewrite (run_systemctl_named subprocess_run arg st Hname).
  cbv zeta.
  set (p := subprocess_run _ _ _).
  pose proof (stored_follows arg (captured_stdout p) (captured_stderr p) st
                             Hkept Harg Hok) as H1.
  destruct p as [out err rc| |e].
  - destruct (follow_up arg).
    + pose proof H1 as (Hk1 & _).
      destruct (refresh_follows _ Hk1) as (r & st' & Hu & H2 & Hs & Hi).
      rewrite Hu. cbn [fst snd]. do 3 eexists. split; [reflexivity|].
      split; [exact (follows_trans _ _ _ _ _ H1 H2)|]. split.
      * intros Hshort. rewrite (Hs Hshort). cbn. eauto.
      * now apply after_refresh_ends.
    + do 3 eexists. split; [reflexivity|]. split; [exact H1|].
      split; [eauto | apply only_int_raised_return].
  - do 3 eexists. split; [reflexivity|]. split; [exact H1|].
    split; [eauto | apply only_int_raised_return].
  - do 3 eexists. split; [reflexivity|]. split; [exact H1|].
    split; [eauto | apply only_int_raised_return].
Qed.

Lemma void_result {A} (m : M A) (r : res A) (st st' : State) :
  m st = (r, st') ->
  void m st
  = (match r with Return _ => Return tt | Raise e => Raise e end, st').
Proof.
  intros H. unfold void, mbind, M_bind, bind. rewrite H.
  now destruct r.
Qed.

Lemma void_return {A} (m : M A) (a : A) (st st' : State) :
  m st = (Return a, st') -> void m st = (Return tt, st').
Proof. intros H. now rewrite (void_result m _ st st' H). Qed.

Lemma guarded_run (arg : string) (st : State) :
  truthy (_service_name (self st)) = true ->
  (name ← gets _service_name;
   if negb (truthy name) then raise (ValueError DMsg.NO_SERVICE_NAME)
   else _run_systemctl subprocess_run arg) st
  = _run_systemctl subprocess_run arg st.
Proof.
  intros H. unfold mbind at 1, M_bind at 1, bind at 1, gets at 1.
  now rewrite H.
Qed.

(** What [void] makes of a call that ends well. *)
Lemma void_follows {A} (m : M A) (r : res A) (st st' : State)
      (added : list Cmd) :
  m st = (r, st') ->
  follows st st' added ->
  (short_pids subprocess_run -> exists a, r = Return a) ->
  only_int_raised r ->
  exists r' st'' added',
    void m st = (r', st'') /\ follows st st'' added'
    /\ (short_pids subprocess_run -> r' = Return tt)
    /\ only_int_raised r'.
Proof.
  intros Hm F Hs Hi.
  do 3 eexists. split; [apply (void_result m r st st' Hm)|].
  split; [exact F|]. split.
  - intros Hshort. destruct (Hs Hshort) as (a & ->). reflexivity.
  - intros e He. destruct r as [a|e']; [discriminate|].
    injection He as <-. now apply Hi.
Qed.

Lemma void_stays {A} (m : M A) (a : A) (st : State) :
  kept st ->
  m st = (Return a, st) ->
  exists r' st'' added',
    void m st = (r', st'') /\ follows st st'' added'
    /\ (short_pids subprocess_run -> r' = Return tt)
    /\ only_int_raised r'.
Proof.
  intros Hk Hm.
  apply (void_follows m (Return a) st st []); auto.
  - now apply follows_refl.
  - eauto.
  - apply only_int_raised_return.
Qed.

(** Every public call on such an object keeps it so and ends well. *)
Lemma perform_follows (c : Api.call) (st : State) :
  kept st ->
  exists r st' added,
    perform subprocess_run c st = (r, st') /\ follows st st' added
    /\ (short_pids subprocess_run -> r = Return tt)
    /\ only_int_raised r.
Proof.
  intros Hkept. pose proof Hkept as (Hname & Hk & Hn).
  destruct c as [| | | | | | | | | | |n|t]; unfold perform.
  - destruct (run_follows DSystemCtl.START st Hkept)
      as (r & st' & l & H & F & Hs & Hi); [cbn; tauto|].
    apply (void_follows _ r st st' l); auto.
    unfold start. now rewrite guarded_run.
  - destruct (run_follows DSystemCtl.STOP st Hkept)
      as (r & st' & l & H & F & Hs & Hi); [cbn; tauto|].
    apply (void_follows _ r st st' l); auto.
    unfold stop. now rewrite guarded_run.
  - destruct (run_follows DSystemCtl.RESTART st Hkept)
      as (r & st' & l & H & F & Hs & Hi); [cbn; tauto|].
    apply (void_follows _ r st st' l); auto.
    unfold restart. now rewrite guarded_run.
  - destruct (run_follows DSystemCtl.ENABLE st Hkept)
      as (r & st' & l & H & F & Hs & Hi); [cbn; tauto|].
    apply (void_follows _ r st st' l); auto.
    unfold enable. now rewrite guarded_run.
  - destruct (run_follows DSystemCtl.DISABLE st Hkept)
      as (r & st' & l & H & F & Hs & Hi); [cbn; tauto|].
    apply (void_follows _ r st st' l); auto.
    unfold disable. now rewrite guarded_run.
  - destruct (refresh_follows st Hkept) as (r & st' & Hu & F & Hs & Hi).
    apply (void_follows _ (after_refresh r (ACTIVE (result (self st'))))
                        st st' [status_cmd (self st)]); auto.
    + unfold running, mbind, M_bind, bind. rewrite Hu.
      now destruct r as [[]|e].
    + intros Hshort. rewrite (Hs Hshort). cbn. eauto.
    + now apply after_refresh_ends.
  - now apply (void_stays _ (ENABLED (result (self st)))).
  - apply (void_stays _ (match RAW_STDERR (result (self st)) with
                         | EmptyString => true | String _ _ => false end));
      auto.
  - now apply (void_stays _ (PID (result (self st)))).
  - now apply (void_stays _ (RAW_STDOUT (result (self st)))).
  - now apply (void_stays _ (RAW_STDERR (result (self st)))).
  - destruct (truthy n) eqn:Hn'.
    + destruct (decide (n = _service_name (self st))) as [Heq | Hne].
      * apply (void_stays _ (_service_name (self st))); auto.
        apply service_name_kept_value; auto.
      * destruct n as [name|]; [|discriminate].
        assert (kept (renamed name st)) as Hkr by (split; [exact Hn'|auto]).
        destruct (refresh_follows _ Hkr) as (r & st' & Hu & F & Hs & Hi).
        apply (void_follows _ (after_refresh r (Some name)) st st'
                            [status_cmd (self (renamed name st))]).
        -- rewrite (service_name_new_value subprocess_run name st Hn' Hne).
           now rewrite Hu.
        -- exact F.
        -- intros Hshort. rewrite (Hs Hshort). cbn. eauto.
        -- now apply after_refresh_ends.
    + apply (void_stays _ (_service_name (self st))); auto.
      apply service_name_kept_value; auto.
  - destruct t as [t|].
    + apply (void_follows _ (Return t) st
               (mk_state
                  (mk_self (result (self st)) (_service_name (self st)) t)
                  (world st)) []).
      * reflexivity.
      * unfold follows, kept. cbn. rewrite app_nil_r. auto.
      * eauto.
      * apply only_int_raised_return.
    + now apply (void_stays _ (_timeout (self st))).
Qed.

Lemma perform_all_follows (cs : list Api.call) (st : State) :
  kept st ->
  exists r st' added,
    perform_all subprocess_run cs st = (r, st')
    /\ follows st st' added
    /\ (short_pids subprocess_run -> r = Return tt)
    /\ only_int_raised r.
Proof.
  revert st. induction cs as [|c cs IH]; intros st Hkept.
  - exists (Return tt), st, []. split; [reflexivity|].
    split; [now apply follows_refl|].
    split; [auto | apply only_int_raised_return].
  - destruct (perform_follows c st Hkept)
      as (r1 & st1 & l1 & Hp & F1 & Hs1 & Hi1).
    pose proof F1 as (Hk1 & _).
    destruct r1 as [[]|e].
    + destruct (IH st1 Hk1) as (r & st' & l2 & Hr & F2 & Hs2 & Hi2).
      exists r, st', (l1 ++ l2). split.
      * cbn [perform_all]. unfold mbind, M_bind, bind. now rewrite Hp.
      * split; [exact (follows_trans _ _ _ _ _ F1 F2)|]. auto.
    + exists (Raise e), st1, l1. split.
      * cbn [perform_all]. unfold mbind, M_bind, bind. now rewrite Hp.
      * split; [exact F1|]. split; [|exact Hi1].
        intros Hshort. specialize (Hs1 Hshort). discriminate.
Qed.

Variables SYSTEMD_COLORS SYSTEMD_PAGER : string.

(** [__init__] up to its refresh: the attributes are set and the two
    environment variables written, whatever the name. *)
Lemma init_before_refresh (name : option string) (w : World) :
  __init__ subprocess_run SYSTEMD_COLORS SYSTEMD_PAGER name (mk_state blank w)
  = _update_status subprocess_run
      (mk_state (mk_self (mk_result None None None "" "") name TIMEOUT)
                (quiet SYSTEMD_COLORS SYSTEMD_PAGER w)).
Proof. reflexivity. Qed.

Lemma session_follows (name : option string) (cs : list Api.call) (w : World) :
  truthy name = true ->
  exists r st' added,
    session subprocess_run SYSTEMD_COLORS SYSTEMD_PAGER name cs w = (r, st')
    /\ kept st'
    /\ environ (world st') = environ (quiet SYSTEMD_COLORS SYSTEMD_PAGER w)
    /\ calls (world st')
       = calls w ++ [Some SYSTEMCTL; Some DSystemCtl.STATUS; name] :: added
    /\ forallb cmd_ok added = true
    /\ (short_pids subprocess_run -> r = Return tt)
    /\ only_int_raised r.
Proof.
  intros Hname.
  set (st0 := mk_state (mk_self (mk_result None None None "" "") name TIMEOUT)
                       (quiet SYSTEMD_COLORS SYSTEMD_PAGER w)).
  assert (kept st0) as Hk0.
  { split; [exact Hname|]. split; [intros H; now elim H | discriminate]. }
  destruct (refresh_follows st0 Hk0) as (r1 & st1 & Hu & F1 & Hs1 & Hi1).
  pose proof F1 as (Hk1 & He1 & Hc1 & _).
  destruct r1 as [[]|e].
  - destruct (perform_all_follows cs st1 Hk1)
      as (r & st' & l & Hp & F2 & Hs2 & Hi2).
    destruct F2 as (Hk' & He2 & Hc2 & Hf2).
    exists r, st', l. split.
    + unfold session. unfold mbind at 1, M_bind at 1, bind at 1.
      rewrite init_before_refresh. fold st0. now rewrite Hu.
    + split; [exact Hk'|]. split; [now rewrite He2, He1|].
      split; [rewrite Hc2, Hc1; now rewrite <- app_assoc|]. auto.
  - exists (Raise e), st1, []. split.
    + unfold session. unfold mbind at 1, M_bind at 1, bind at 1.
      rewrite init_before_refresh. fold st0. now rewrite Hu.
    + split; [exact Hk1|]. split; [exact He1|].
      split; [exact Hc1|]. split; [reflexivity|]. split; [|exact Hi1].
      intros Hshort. specialize (Hs1 Hshort). discriminate.
Qed.



(** X8. On an object built with a name, after any sequence of public calls,
    the pid held is never negative: it was read by [int] from a run of
    decimal digits. *)
Theorem session_pid_nonnegative
        (name : option string) (cs : list Api.call) (w : World) :
  truthy name = true ->
  forall st' n,
    snd (session subprocess_run SYSTEMD_COLORS SYSTEMD_PAGER name cs w) = st' ->
    PID (result (self st')) = Some n -> 0 <= n.
Proof.
  intros Hname st' n Hst.
  destruct (session_follows name cs w Hname)
    as (r & st1 & l & Hs & (_ & _ & Hn) & _).
  rewrite Hs in Hst. cbn in Hst. subst st1. apply Hn.
Qed.

(** X9. The commands run by building an object with a name and calling its
    methods, in any order: the first is the status query of the
    constructor, and every one is either [systemctl status <name>] or
    [sudo systemctl <start|stop|restart|enable|disable> <name>] with a
    non-empty name. Status is never run under sudo, nothing else is run
    without it, and the methods leave the environment as the constructor
    set it. *)
Theorem session_commands
        (name : option string) (cs : list Api.call) (w : World) :
  truthy name = true ->
  exists st' added,
    snd (session subprocess_run SYSTEMD_COLORS SYSTEMD_PAGER name cs w) = st'
    /\ calls (world st')
       = calls w ++ [Some "systemctl"; Some "status"; name] :: added
    /\ forallb cmd_ok added = true
    /\ environ (world st') = environ (quiet SYSTEMD_COLORS SYSTEMD_PAGER w).
Proof.
  intros Hname.
  destruct (session_follows name cs w Hname)
    as (r & st' & l & Hs & _ & He & Hc & Hf & _).
  exists st', l. rewrite Hs. auto.
Qed.

End Sessions.

(** ** The constructor *)

Section Constructor.

Variable subprocess_run : list Cmd -> Cmd -> Z -> Outcome.
Variables SYSTEMD_COLORS SYSTEMD_PAGER : string.

Lemma new_environ (name : option string) (w : World) :
  environ (snd (new subprocess_run SYSTEMD_COLORS SYSTEMD_PAGER name w))
  = environ (quiet SYSTEMD_COLORS SYSTEMD_PAGER w).
Proof.
  unfold new. rewrite init_before_refresh.
  set (st0 := mk_state _ _).
  destruct (truthy name) eqn:Hname.
  - assert (truthy (_service_name (self st0)) = true) as H0 by exact Hname.
    rewrite (update_status_named subprocess_run st0 H0).
    now destruct (refresh_answer _ _ _) as [[]|e].
  - assert (truthy (_service_name (self st0)) = false) as H0 by exact Hname.
    now rewrite (update_status_unnamed subprocess_run st0 H0).
Qed.

(** X10. Building an object writes the two variables of [DEnviron] into the
    environment of the process, "0" for the colours and the empty text for
    the pager, and leaves every other variable alone. This is so for every
    name, also when no name is given and the constructor raises. *)
Theorem construction_writes_environment (name : option string) (w : World) :
  SYSTEMD_COLORS <> SYSTEMD_PAGER ->
  forall w',
    snd (new subprocess_run SYSTEMD_COLORS SYSTEMD_PAGER name w) = w' ->
    environ w' !! SYSTEMD_COLORS = Some "0"
    /\ environ w' !! SYSTEMD_PAGER = Some ""
    /\ forall k, k <> SYSTEMD_COLORS -> k <> SYSTEMD_PAGER ->
                 environ w' !! k = environ w !! k.
Proof.
  intros Hne w' <-. rewrite new_environ. unfold quiet. cbn [environ].
  split; [|split].
  - rewrite lookup_insert_ne by congruence. apply lookup_insert_eq.
  - apply lookup_insert_eq.
  - intros k Hc Hp. now rewrite !lookup_insert_ne by congruence.
Qed.

(** X11. With a non-empty name the constructor runs exactly one command,
    [systemctl status <name>] with timeout 10. It returns an object unless
    that first status text makes [int] raise, on more than 4300 digits
    after Main PID in a running text; no other outcome of [subprocess.run]
    makes it fail. The object carries that name and the timeout 10, and its
    raw streams are those captured from the query; when the query timed
    out, active, pid and enabled are unknown. *)
Theorem construction_with_name_runs_one_status (name : string) (w : World) :
  truthy (Some name) = true ->
  let cmd := [Some "systemctl"; Some "status"; Some name] in
  let p := subprocess_run (calls w) cmd 10 in
  exists r w',
    new subprocess_run SYSTEMD_COLORS SYSTEMD_PAGER (Some name) w = (r, w')
    /\ calls w' = calls w ++ [cmd]
    /\ (pid_too_long (captured_stdout p) = false ->
        exists o,
          r = Return o
          /\ _service_name o = Some name
          /\ _timeout o = 10
          /\ RAW_STDOUT (result o) = captured_stdout p
          /\ RAW_STDERR (result o) = captured_stderr p
          /\ (p = TimeoutExpired ->
              ACTIVE (result o) = None /\ PID (result o) = None
              /\ ENABLED (result o) = None))
    /\ (forall e,
          r = Raise e ->
          exists d,
            pid_digits (captured_stdout p) = Some d
            /\ e = ValueError (int_error d)
            /\ (4300 < String.length d)%nat).
Proof.
  intros Hname cmd p.
  set (st0 := mk_state
                (mk_self (mk_result None None None "" "") (Some name) TIMEOUT)
                (quiet SYSTEMD_COLORS SYSTEMD_PAGER w)).
  assert (truthy (_service_name (self st0)) = true) as H0 by exact Hname.
  pose proof (update_status_named subprocess_run st0 H0) as Hu.
  cbv zeta in Hu.
  change (status_outcome subprocess_run st0) with p in Hu.
  assert (new subprocess_run SYSTEMD_COLORS SYSTEMD_PAGER (Some name) w
          = (match refresh_answer (captured_stdout p) (captured_stderr p)
                                  (result (self st0)) with
             | Return _ =>
                 Return (mk_self (refreshed (captured_stdout p)
                                            (captured_stderr p)
                                            (result (self st0)))
                                 (Some name) TIMEOUT)
             | Raise e => Raise e
             end,
             mk_world (environ (quiet SYSTEMD_COLORS SYSTEMD_PAGER w))
                      (calls w ++ [cmd]))) as Hnew.
  { unfold new. rewrite init_before_refresh. fold st0. rewrite Hu.
    now destruct (refresh_answer _ _ _) as [[]|e]. }
  do 2 eexists. split; [exact Hnew|]. split; [reflexivity|]. split.
  - intros Hshort. rewrite (refresh_answer_short _ _ _ Hshort).
    eexists. split; [reflexivity|].
    cbn [_service_name _timeout result].
    destruct (refreshed_raw (captured_stdout p) (captured_stderr p)
                            (result (self st0))) as [Ho He].
    rewrite Ho, He. do 4 (split; [reflexivity|]).
    intros ->. repeat split; reflexivity.
  - intros e He.
    destruct (refresh_answer _ _ _) as [[]|e'] eqn:Ha; [discriminate|].
    injection He as <-. apply refresh_answer_raise in Ha.
    destruct Ha as (d & Hd & -> & Hlen & _). eauto.
Qed.

End Constructor.

(** ** What the patterns find in a status text *)

Section TextShapes.
Import Re.
Local Arguments String.append !_ _ : simpl nomatch.

Lemma append_assoc (a b c : string) : (a +:+ b) +:+ c = a +:+ (b +:+ c).
Proof.
  induction a as [|x a IH]; cbn [append]; [reflexivity | now rewrite IH].
Qed.

Lemma bol_after_append (bol : bool) (a b : string) :
  bol_after bol (a +:+ b) = bol_after (bol_after bol a) b.
Proof. revert bol. induction a as [|x a IH]; intros bol; simpl; auto. Qed.

Lemma all_ok_append (a : atom) (s t : string) :
  all_ok a (s +:+ t) = all_ok a s && all_ok a t.
Proof.
  induction s as [|c s IH]; cbn [append all_ok]; [reflexivity|].
  rewrite IH. now destruct (atom_ok a c).
Qed.

(** A match found later in the text is not lost: [search] finds it or an
    earlier one. *)
Lemma search_from_later (r : regex) (bol : bool) (pre s : string) (m : Match) :
  match_here r (bol_after bol pre) s None None = Some m ->
  exists m', search_from r bol (pre +:+ s) = Some m'.
Proof.
  revert bol. induction pre as [|c pre IH]; intros bol H.
  - cbn [append bol_after] in *.
    destruct s; cbn [search_from]; rewrite H; eauto.
  - cbn [append search_from].
    destruct (match_here r bol (String c (pre +:+ s)) None None); eauto.
Qed.

(** Literal text is read off character by character. *)
Lemma match_here_lit (l : string) (r : regex) (bol : bool) (s : string)
      (g cap : option string) :
  match_here (lit l ++ r) bol (l +:+ s) g cap
  = match_here r (bol_after bol l) s g cap.
Proof.
  revert bol. induction l as [|c l IH]; intros bol; [reflexivity|].
  cbn [lit app append match_here atom_ok bol_after].
  rewrite Ascii.eqb_refl. apply IH.
Qed.

(** A star lets through whatever the rest of the pattern accepts. *)
Lemma star_passes (a : atom) (r : regex) (bol : bool) (s : string)
      (g cap : option string) (m : Match) :
  match_here r bol s g cap = Some m ->
  exists m', match_here (Star a :: r) bol s g cap = Some m'.
Proof.
  intros H. destruct s as [|c s']; cbn [match_here]; [eauto|].
  destruct (atom_ok a c); [|eauto].
  match goal with |- context [match ?l with _ => _ end] => destruct l end;
    eauto.
Qed.

Lemma star_skips (a : atom) (r : regex) (ws : string) (bol : bool)
      (s : string) (g cap : option string) (m : Match) :
  all_ok a ws = true ->
  match_here r (bol_after bol ws) s g cap = Some m ->
  exists m', match_here (Star a :: r) bol (ws +:+ s) g cap = Some m'.
Proof.
  revert bol. induction ws as [|c ws IH]; intros bol Hws H.
  - exact (star_passes a r bol s g cap m H).
  - cbn [all_ok] in Hws. apply andb_true_iff in Hws. destruct Hws as [Hc Hws].
    destruct (IH (is_newline c) Hws H) as (m' & Hm').
    exists m'. cbn [append]. cbn [match_here]. rewrite Hc.
    change (match_here (Star a :: r) (is_newline c) (ws +:+ s) g cap = Some m')
      in Hm'.
    cbn [match_here] in Hm'. now rewrite Hm'.
Qed.

(** When the star has taken all it can and the rest of the pattern accepts
    what follows, that is the match. *)
Lemma star_greedy (a : atom) (r : regex) (ws : string) (bol : bool)
      (s : string) (g cap : option string) (m : Match) :
  all_ok a ws = true -> head_ok a s = false ->
  match_here r (bol_after bol ws) s g cap = Some m ->
  match_here (Star a :: r) bol (ws +:+ s) g cap = Some m.
Proof.
  revert bol. induction ws as [|c ws IH]; intros bol Hws Hs H.
  - cbn [append bol_after] in *. destruct s as [|c s']; cbn [match_here].
    + exact H.
    + cbn [head_ok] in Hs. now rewrite Hs.
  - cbn [all_ok] in Hws. apply andb_true_iff in Hws. destruct Hws as [Hc Hws].
    pose proof (IH (is_newline c) Hws Hs H) as Hm.
    cbn [append]. cbn [match_here]. rewrite Hc.
    cbn [match_here] in Hm. now rewrite Hm.
Qed.

(** A star followed by a literal outside its class fails when the first
    character after the run is neither in the class nor that literal. *)
Lemma star_then_lit_fails (a : atom) (c0 : ascii) (r : regex) (ws : string)
      (bol : bool) (c : ascii) (s : string) (g cap : option string) :
  all_ok a ws = true -> atom_ok a c0 = false ->
  atom_ok a c = false -> Ascii.eqb c c0 = false ->
  match_here (Star a :: One (Lit c0) :: r) bol (ws +:+ String c s) g cap
  = None.
Proof.
  intros Hws H0 Hc Hne. revert bol.
  induction ws as [|b ws IH]; intros bol.
  - cbn [append match_here atom_ok]. now rewrite Hc, Hne.
  - cbn [all_ok] in Hws. apply andb_true_iff in Hws. destruct Hws as [Hb Hws].
    pose proof (IH Hws (is_newline b)) as Hn.
    cbn [append]. cbn [match_here]. rewrite Hb.
    cbn [match_here] in Hn. rewrite Hn.
    cbn [atom_ok].
    destruct (Ascii.eqb b c0) eqn:Hbc; [|reflexivity].
    apply Ascii.eqb_eq in Hbc. subst b. congruence.
Qed.

Lemma match_here_one (a : atom) (r : regex) (bol : bool) (c : ascii)
      (s : string) (g cap : option string) :
  atom_ok a c = true ->
  match_here (One a :: r) bol (String c s) g cap
  = match_here r (is_newline c) s g cap.
Proof. intros H. cbn [match_here]. now rewrite H. Qed.

Lemma newline_is_space (c : ascii) : is_newline c = true -> is_space c = true.
Proof.
  unfold is_newline. intros H. apply Ascii.eqb_eq in H. now subst c.
Qed.

Lemma digit_not_space (c : ascii) : is_digit c = true -> is_space c = false.
Proof.
  unfold is_digit, is_space. generalize (nat_of_ascii c). intros n H.
  apply andb_true_iff in H. destruct H as [H1 H2].
  apply Nat.leb_le in H1. apply Nat.leb_le in H2.
  repeat match goal with
         | |- context [(?x <=? ?y)%nat] => destruct (Nat.leb_spec x y)
         | |- context [(?x =? ?y)%nat] => destruct (Nat.eqb_spec x y)
         end; cbn; try reflexivity; lia.
Qed.

Lemma star_skips_to (a : atom) (r : regex) (ws : string) (bol : bool)
      (s : string) (g cap : option string) :
  all_ok a ws = true ->
  (exists m, match_here r (bol_after bol ws) s g cap = Some m) ->
  exists m', match_here (Star a :: r) bol (ws +:+ s) g cap = Some m'.
Proof. intros Hws (m & Hm). eapply star_skips; eauto. Qed.

(** ["active (running)"] on a line of its own kind is matched. *)
Lemma active_running_found (out : string) :
  running_line out ->
  matched (search Pattern.active_running out) = true.
Proof.
  intros (pre & ws & ws' & rest & -> & Hbol & Hws & Hws' & Hne).
  destruct ws' as [|c ws']; [congruence|].
  cbn [all_ok] in Hws'. apply andb_true_iff in Hws'.
  destruct Hws' as [Hc Hws'].
  change Pattern.active_running with
    (Bol :: Star Space
         :: (lit "Active:"
               ++ One Space :: Star Space
               :: (lit "active (running)" ++ [Star Dot]))).
  assert (forall b g cap, exists m,
             match_here [Star Dot] b rest g cap = Some m) as H1.
  { intros. now apply star_passes with (mk_match cap). }
  assert (exists m,
             match_here
               (Bol :: Star Space
                    :: (lit "Active:"
                          ++ One Space :: Star Space
                          :: (lit "active (running)" ++ [Star Dot])))
               (bol_after true pre)
               (ws +:+ ("Active:"
                          +:+ (String c ws' +:+ ("active (running)" +:+ rest))))
               None None = Some m) as (m & Hm).
  { rewrite Hbol.
    change (match_here (Bol :: ?r) true ?s ?g ?cap)
      with (match_here r true s g cap).
    apply star_skips_to; [exact Hws|].
    rewrite match_here_lit.
    change (String c ws' +:+ ?x) with (String c (ws' +:+ x)).
    rewrite match_here_one by exact Hc.
    apply star_skips_to; [exact Hws'|].
    rewrite match_here_lit. apply H1. }
  apply search_from_later in Hm. destruct Hm as (m' & Hm').
  unfold search. now rewrite Hm'.
Qed.

(** ["Loaded: ...; enabled;"] on one line is matched wherever it stands. *)
Lemma loaded_enabled_found (out : string) :
  enabled_line out ->
  matched (search Pattern.loaded_enabled out) = true.
Proof.
  intros (pre & mid & post & -> & Hmid).
  change Pattern.loaded_enabled with
    (lit "Loaded: " ++ Star Dot :: (lit "; enabled;" ++ [])).
  assert (exists m,
             match_here (lit "Loaded: " ++ Star Dot :: (lit "; enabled;" ++ []))
                        (bol_after true pre)
                        ("Loaded: " +:+ (mid +:+ ("; enabled;" +:+ post)))
                        None None = Some m) as (m & Hm).
  { rewrite match_here_lit.
    apply star_skips_to; [exact Hmid|].
    rewrite match_here_lit. eexists. reflexivity. }
  apply search_from_later in Hm. destruct Hm as (m' & Hm').
  unfold search. now rewrite Hm'.
Qed.

Lemma all_ok_digits (d : string) : all_ok Digit d = all_digits d.
Proof. induction d as [|c d IH]; cbn; [reflexivity | now rewrite IH]. Qed.

Lemma lines_avoid_split (c0 : ascii) (pre : string) :
  lines_avoid c0 true pre = true ->
  all_ok Space pre = true
  \/ exists blanks c rest',
      pre = blanks +:+ String c rest'
      /\ all_ok Space blanks = true
      /\ is_space c = false /\ Ascii.eqb c c0 = false.
Proof.
  induction pre as [|c pre IH]; cbn [lines_avoid all_ok atom_ok].
  - now left.
  - destruct (is_space c) eqn:Hc.
    + intros H. destruct (IH H) as [Hall | (bl & c1 & r1 & -> & Hbl & H1 & H2)].
      * left. exact Hall.
      * right. exists (String c bl), c1, r1. cbn [all_ok atom_ok].
        rewrite Hc, Hbl. auto.
    + intros H. apply andb_true_iff in H. destruct H as [H _].
      right. exists "", c, pre. apply negb_true_iff in H. auto.
Qed.

Lemma lines_avoid_next (c0 : ascii) (lead : bool) (c : ascii) (pre : string) :
  lines_avoid c0 lead (String c pre) = true ->
  exists lead',
    lines_avoid c0 lead' pre = true /\ (is_newline c = true -> lead' = true).
Proof.
  cbn [lines_avoid]. destruct lead.
  - destruct (is_space c) eqn:Hc.
    + intros H. exists true. auto.
    + intros H. apply andb_true_iff in H. destruct H as [_ H].
      exists false. split; [exact H|].
      intros Hn. apply newline_is_space in Hn. congruence.
  - intros H. exists (is_newline c). auto.
Qed.

(** The line "Main PID: <digits>" read from its start: group 1 is the whole
    run of digits. *)
Lemma main_pid_here (ws0 ws' d rest : string) :
  all_ok Space ws0 = true ->
  all_ok Space ws' = true -> ws' <> "" ->
  all_digits d = true -> d <> "" ->
  head_ok Digit rest = false ->
  match_here Pattern.main_pid true
             (ws0 +:+ ("Main PID:" +:+ (ws' +:+ (d +:+ rest)))) None None
  = Some (mk_match (Some d)).
Proof.
  intros Hws0 Hws' Hne Hd Hdne Hrest.
  destruct ws' as [|c ws']; [congruence|].
  destruct d as [|x d]; [congruence|].
  cbn [all_ok] in Hws'. apply andb_true_iff in Hws'. destruct Hws' as [Hc Hws'].
  cbn [all_digits] in Hd. apply andb_true_iff in Hd. destruct Hd as [Hx Hd].
  change Pattern.main_pid with
    (Bol :: Star Space
         :: (lit "Main PID:"
               ++ One Space :: Star Space :: GroupOpen :: One Digit
               :: Star Digit :: [GroupClose])).
  change (match_here (Bol :: ?r) true ?s ?g ?cap)
    with (match_here r true s g cap).
  apply star_greedy; [exact Hws0 | reflexivity |].
  rewrite match_here_lit.
  change (String c ws' +:+ ?t) with (String c (ws' +:+ t)).
  rewrite match_here_one by exact Hc.
  apply star_greedy; [exact Hws' | exact (digit_not_space x Hx) |].
  change (String x d +:+ rest) with (String x (d +:+ rest)).
  change (match_here (GroupOpen :: ?r) ?b ?s ?g ?cap)
    with (match_here r b s (Some s) cap).
  rewrite match_here_one by exact Hx.
  apply star_greedy; [now rewrite all_ok_digits | exact Hrest |].
  cbn [match_here].
  change (String x (d +:+ rest)) with (String x d +:+ rest).
  now rewrite consumed_append.
Qed.

(** A match tried from inside the lines before finds nothing, or runs over
    blanks into the same line and reads the same digits. *)
Lemma main_pid_from_before (pre ws ws' d rest : string) (bol lead : bool) :
  (bol = true -> lead = true) ->
  lines_avoid "M" lead pre = true ->
  all_ok Space ws = true ->
  all_ok Space ws' = true -> ws' <> "" ->
  all_digits d = true -> d <> "" ->
  head_ok Digit rest = false ->
  let text := pre +:+ (ws +:+ ("Main PID:" +:+ (ws' +:+ (d +:+ rest)))) in
  match_here Pattern.main_pid bol text None None = None
  \/ match_here Pattern.main_pid bol text None None = Some (mk_match (Some d)).
Proof.
  intros Hbl Hpre Hws Hws' Hne Hd Hdne Hrest text.
  destruct bol; [|left; reflexivity].
  rewrite (Hbl eq_refl) in Hpre.
  destruct (lines_avoid_split _ _ Hpre)
    as [Hall | (bl & c & r1 & -> & Hbl' & Hc & Hne')].
  - right. subst text. rewrite <- append_assoc.
    apply main_pid_here; try assumption.
    now rewrite all_ok_append, Hall, Hws.
  - left. subst text. rewrite append_assoc.
    change (String c r1 +:+ ?t) with (String c (r1 +:+ t)).
    change Pattern.main_pid with
      (Bol :: Star Space :: One (Lit "M")
           :: (lit "ain PID:"
                 ++ One Space :: Star Space :: GroupOpen :: One Digit
                 :: Star Digit :: [GroupClose])).
    change (match_here (Bol :: ?r) true ?s ?g ?cap)
      with (match_here r true s g cap).
    apply star_then_lit_fails; auto.
Qed.

Lemma main_pid_search (pre ws ws' d rest : string) (bol lead : bool) :
  (bol = true -> lead = true) ->
  lines_avoid "M" lead pre = true ->
  bol_after bol pre = true ->
  all_ok Space ws = true ->
  all_ok Space ws' = true -> ws' <> "" ->
  all_digits d = true -> d <> "" ->
  head_ok Digit rest = false ->
  search_from Pattern.main_pid bol
              (pre +:+ (ws +:+ ("Main PID:" +:+ (ws' +:+ (d +:+ rest)))))
  = Some (mk_match (Some d)).
Proof.
  intros Hbl Hpre Hbol Hws Hws' Hne Hd Hdne Hrest.
  revert bol lead Hbl Hpre Hbol.
  induction pre as [|c pre IH]; intros bol lead Hbl Hpre Hbol.
  - cbn [bol_after] in Hbol. subst bol.
    pose proof (main_pid_here ws ws' d rest Hws Hws' Hne Hd Hdne Hrest) as H.
    change ("" +:+ ?t) with t.
    destruct (ws +:+ _); cbn [search_from]; now rewrite H.
  - destruct (main_pid_from_before (String c pre) ws ws' d rest bol lead
                Hbl Hpre Hws Hws' Hne Hd Hdne Hrest) as [H | H];
      cbv zeta in H;
      change (String c pre +:+ ?t) with (String c (pre +:+ t)) in *;
      cbn [search_from]; rewrite H; [|reflexivity].
    destruct (lines_avoid_next _ _ _ _ Hpre) as (lead' & Hpre' & Hl).
    apply (IH (is_newline c) lead' Hl Hpre' Hbol).
Qed.

(** The first line that starts with an "M" being "Main PID: <digits>", the
    pattern captures exactly those digits. *)
Lemma main_pid_found (out d : string) :
  pid_line out d ->
  search Pattern.main_pid out = Some (mk_match (Some d)).
Proof.
  intros (pre & ws & ws' & rest & -> & Hbol & Hpre & Hws & Hws' & Hne
          & Hd & Hdne & Hrest).
  unfold search.
  now apply main_pid_search with (lead := true).
Qed.

End TextShapes.

(** ** From the status text to the answers of the object *)

Section Answers.

Variable subprocess_run : list Cmd -> Cmd -> Z -> Outcome.

(** X12. When the status query of a named object does not report "could
    not be found", its stdout has a line reading, after blanks, "Active:",
    blanks, "active (running)", whatever the other lines are and whatever
    follows on that line, and the Main PID pattern captures no more than
    4300 digits in it, [running()] returns [True]. *)
Theorem running_true_on_running_line (st : State) :
  truthy (_service_name (self st)) = true ->
  str_in DMsg.NOT_FOUND (captured_stderr (status_outcome subprocess_run st))
  = false ->
  running_line (captured_stdout (status_outcome subprocess_run st)) ->
  pid_too_long (captured_stdout (status_outcome subprocess_run st)) = false ->
  exists st', running subprocess_run st = (Return (Some true), st').
Proof.
  intros Hname Hnf Hline Hshort.
  eexists. unfold running, mbind, M_bind, bind.
  rewrite (update_status_named subprocess_run st Hname).
  rewrite (refresh_answer_short _ _ _ Hshort).
  unfold refreshed, gets. rewrite Hnf.
  cbn [with_fields self result ACTIVE]. unfold active_after.
  now rewrite (active_running_found _ Hline).
Qed.

(** X13. When moreover the first line of that stdout that begins with an
    "M" reads "Main PID:", blanks and a run of at most 4300 digits, [pid()]
    after [running()] returns the number those digits write in base ten:
    all of them, leading zeros dropped. *)
Theorem pid_is_number_after_main_pid (st : State) (d : string) :
  truthy (_service_name (self st)) = true ->
  str_in DMsg.NOT_FOUND (captured_stderr (status_outcome subprocess_run st))
  = false ->
  running_line (captured_stdout (status_outcome subprocess_run st)) ->
  pid_line (captured_stdout (status_outcome subprocess_run st)) d ->
  (String.length d <= 4300)%nat ->
  exists n st',
    int d = Some n
    /\ running subprocess_run st = (Return (Some true), st')
    /\ pid st' = (Return (Some n), st').
Proof.
  intros Hname Hnf Hrun Hpid Hlen.
  assert (exists n, int d = Some n) as (n & Hn).
  { destruct Hpid as (_ & _ & _ & _ & _ & _ & _ & _ & _ & _ & Hd & Hne & _).
    now apply int_short_digits. }
  exists n. eexists. split; [exact Hn|].
  unfold running, pid, mbind, M_bind, bind.
  rewrite (update_status_named subprocess_run st Hname).
  unfold refreshed, refresh_answer, gets. rewrite Hnf.
  cbn [with_fields self result ACTIVE PID]. unfold active_after, pid_after.
  rewrite (active_running_found _ Hrun), (main_pid_found _ _ Hpid).
  cbn [Re.matched Re.group1]. rewrite Hn. split; reflexivity.
Qed.

(** X16. With the same two lines but more than 4300 digits after "Main
    PID:", [running()] does not return: the [ValueError] of [int] leaves
    the method. Active has been set to [True] by then, pid keeps the value
    it had, and the raw streams are those of the query. *)
Theorem running_raises_on_long_pid (st : State) (d : string) :
  truthy (_service_name (self st)) = true ->
  str_in DMsg.NOT_FOUND (captured_stderr (status_outcome subprocess_run st))
  = false ->
  running_line (captured_stdout (status_outcome subprocess_run st)) ->
  pid_line (captured_stdout (status_outcome subprocess_run st)) d ->
  (4300 < String.length d)%nat ->
  exists st',
    running subprocess_run st = (Raise (ValueError (int_error d)), st')
    /\ ACTIVE (result (self st')) = Some true
    /\ PID (result (self st')) = PID (result (self st))
    /\ RAW_STDOUT (result (self st'))
       = captured_stdout (status_outcome subprocess_run st).
Proof.
  intros Hname Hnf Hrun Hpid Hlen.
  eexists.
  unfold running, mbind, M_bind, bind.
  rewrite (update_status_named subprocess_run st Hname).
  unfold refreshed, refresh_answer. rewrite Hnf.
  cbn [with_fields self result ACTIVE PID RAW_STDOUT].
  unfold active_after, pid_after.
  rewrite (active_running_found _ Hrun), (main_pid_found _ _ Hpid).
  cbn [Re.matched Re.group1]. rewrite (int_long_text d Hlen).
  repeat split; reflexivity.
Qed.

(** X14. When the status query of a named object does not report "could
    not be found" and its stdout has, anywhere, "Loaded: " followed on the
    same line by "; enabled;", [enabled()] returns [True] in the state the
    refresh leaves, whether the refresh returned or raised at [int]. *)
Theorem enabled_true_on_enabled_line (st : State) :
  truthy (_service_name (self st)) = true ->
  str_in DMsg.NOT_FOUND (captured_stderr (status_outcome subprocess_run st))
  = false ->
  enabled_line (captured_stdout (status_outcome subprocess_run st)) ->
  exists r st',
    _update_status subprocess_run st = (r, st')
    /\ enabled st' = (Return (Some true), st').
Proof.
  intros Hname Hnf Hline.
  do 2 eexists.
  split; [apply (update_status_named subprocess_run st Hname)|].
  unfold enabled, gets, refreshed. rewrite Hnf.
  cbn [with_fields self result ENABLED]. unfold enabled_after.
  now rewrite (loaded_enabled_found _ Hline).
Qed.

(** X15. Renaming an object whose new status query times out: the call
    returns the new name without raising, and active, pid and enabled are
    still the values read for the service of the old name. *)
Theorem rename_keeps_fields_when_query_times_out (st : State) (name : string) :
  truthy (Some name) = true ->
  Some name <> _service_name (self st) ->
  status_outcome subprocess_run (renamed name st) = TimeoutExpired ->
  exists st',
    service_name subprocess_run (Some name) st = (Return (Some name), st')
    /\ _service_name (self st') = Some name
    /\ ACTIVE (result (self st')) = ACTIVE (result (self st))
    /\ PID (result (self st')) = PID (result (self st))
    /\ ENABLED (result (self st')) = ENABLED (result (self st)).
Proof.
  intros Hnew Hdiff Hp.
  assert (truthy (_service_name (self (renamed name st))) = true) as Hn
      by exact Hnew.
  pose proof (update_status_named subprocess_run _ Hn) as Hu.
  cbv zeta in Hu. rewrite Hp in Hu.
  eexists. split.
  - rewrite (service_name_new_value subprocess_run name st Hnew Hdiff).
    rewrite Hu. reflexivity.
  - repeat split; reflexivity.
Qed.

End Answers.

(** ** The further properties at sample inputs *)

Lemma timeout_set_then_used_witness :
  truthy (_service_name (self (Example.handle (Some "nginx")))) = true
  /\ exists st1,
      timeout (Some 0) (Example.handle (Some "nginx")) = (Return 0, st1)
      /\ timeout None st1 = (Return 0, st1).
Proof.
  split; [reflexivity|].
  destruct (timeout_set_then_used
              Example.healthy 0 "stop" (Example.handle (Some "nginx")) eq_refl)
    as (st1 & H1 & H2 & _).
  exists st1. split; assumption.
Defined.

Lemma installed_after_refresh_witness :
  truthy (_service_name (self (Example.handle (Some "nginx")))) = true
  /\ exists r st',
      _update_status Example.hangs (Example.handle (Some "nginx")) = (r, st')
      /\ installed st' = (Return false, st').
Proof.
  split; [reflexivity|].
  destruct (installed_after_refresh
              Example.hangs (Example.handle (Some "nginx")) eq_refl)
    as (r & st' & Hu & _ & _ & H).
  exists r, st'. split; [exact Hu | apply H; reflexivity].
Defined.

Lemma enabled_branches_in_priority_witness :
  truthy (_service_name (self (Example.handle (Some "nginx")))) = true
  /\ str_in DMsg.NOT_FOUND
       (captured_stderr
          (status_outcome Example.healthy (Example.handle (Some "nginx"))))
     = false
  /\ exists r st',
      _update_status Example.healthy (Example.handle (Some "nginx"))
      = (r, st')
      /\ enabled st' = (Return (Some true), st').
Proof.
  split; [reflexivity|]. split; [reflexivity|].
  destruct (enabled_branches_in_priority
              Example.healthy (Example.handle (Some "nginx"))
              eq_refl eq_refl) as (r & st' & Hu & H1 & _).
  exists r, st'. split; [exact Hu | apply H1; reflexivity].
Defined.

Lemma start_stop_restart_run_once_witness :
  In (stop Example.healthy, DSystemCtl.STOP)
     [(start Example.healthy, DSystemCtl.START);
      (stop Example.healthy, DSystemCtl.STOP);
      (restart Example.healthy, DSystemCtl.RESTART)]
  /\ truthy (_service_name (self (Example.handle (Some "nginx")))) = true
  /\ exists st',
      stop Example.healthy (Example.handle (Some "nginx")) = (Return 1, st')
      /\ calls (world st')
         = [[Some "sudo"; Some "systemctl"; Some "stop"; Some "nginx"]]
      /\ ACTIVE (result (self st')) = None.
Proof.
  split; [right; left; reflexivity|]. split; [reflexivity|].
  destruct (start_stop_restart_run_once
              Example.healthy (stop Example.healthy) DSystemCtl.STOP
              (Example.handle (Some "nginx"))
              (or_intror (or_introl eq_refl)) eq_refl)
    as (st' & Hc & Hl & Ha & _).
  exists st'. split; [exact Hc|]. split; [exact Hl | exact Ha].
Defined.

Lemma failed_status_query_keeps_fields_witness :
  truthy (_service_name (self (Example.handle (Some "nginx")))) = true
  /\ status_outcome Example.hangs (Example.handle (Some "nginx"))
     = TimeoutExpired
  /\ exists st',
      running Example.hangs (Example.handle (Some "nginx")) = (Return None, st').
Proof.
  split; [reflexivity|]. split; [reflexivity|].
  destruct (failed_status_query_keeps_fields
              Example.hangs (Example.handle (Some "nginx"))
              eq_refl (or_introl eq_refl)) as (st' & H & _).
  exists st'. exact H.
Defined.



Lemma session_pid_nonnegative_witness :
  truthy (Some "nginx") = true
  /\ PID (result (self (snd (session Example.stops "SYSTEMD_COLORS"
                                     "SYSTEMD_PAGER" (Some "nginx")
                                     [Api.Running] Example.world0))))
     = Some 1234
  /\ 0 <= 1234.
Proof.
  split; [reflexivity|]. split; [vm_compute; reflexivity|].
  apply (session_pid_nonnegative
           Example.stops "SYSTEMD_COLORS" "SYSTEMD_PAGER" (Some "nginx")
           [Api.Running] Example.world0 eq_refl _ 1234 eq_refl).
  vm_compute. reflexivity.
Defined.

Lemma session_commands_witness :
  truthy (Some "nginx") = true
  /\ exists added,
      calls (world (snd (session Example.healthy "SYSTEMD_COLORS"
                                 "SYSTEMD_PAGER" (Some "nginx")
                                 [Api.Restart; Api.Disable] Example.world0)))
      = [Some "systemctl"; Some "status"; Some "nginx"] :: added
      /\ forallb cmd_ok added = true.
Proof.
  split; [reflexivity|].
  destruct (session_commands
              Example.healthy "SYSTEMD_COLORS" "SYSTEMD_PAGER" (Some "nginx")
              [Api.Restart; Api.Disable] Example.world0 eq_refl)
    as (st' & added & <- & Hc & Hf & _).
  exists added. split; [exact Hc | exact Hf].
Defined.

Lemma construction_writes_environment_witness :
  "SYSTEMD_COLORS" <> "SYSTEMD_PAGER"
  /\ environ (snd (new Example.healthy "SYSTEMD_COLORS" "SYSTEMD_PAGER" None
                       Example.world0)) !! "SYSTEMD_COLORS"
     = Some "0".
Proof.
  assert ("SYSTEMD_COLORS" <> "SYSTEMD_PAGER") as Hne by discriminate.
  split; [exact Hne|].
  destruct (construction_writes_environment
              Example.healthy "SYSTEMD_COLORS" "SYSTEMD_PAGER" None
              Example.world0 Hne _ eq_refl) as (H & _).
  exact H.
Defined.

Lemma construction_with_name_runs_one_status_witness :
  truthy (Some "nginx") = true
  /\ exists r w',
      new Example.hangs "SYSTEMD_COLORS" "SYSTEMD_PAGER" (Some "nginx")
          Example.world0 = (r, w')
      /\ calls w' = [[Some "systemctl"; Some "status"; Some "nginx"]]
      /\ exists o, r = Return o /\ ACTIVE (result o) = None.
Proof.
  split; [reflexivity|].
  destruct (construction_with_name_runs_one_status
              Example.hangs "SYSTEMD_COLORS" "SYSTEMD_PAGER" "nginx"
              Example.world0 eq_refl)
    as (r & w' & Hn & Hc & Ho & _).
  exists r, w'. split; [exact Hn|]. split; [exact Hc|].
  destruct (Ho eq_refl) as (o & Hr & _ & _ & _ & _ & Ht).
  exists o. split; [exact Hr|].
  destruct (Ht eq_refl) as (Ha & _). exact Ha.
Defined.

Lemma running_true_on_running_line_witness :
  truthy (_service_name (self (Example.handle (Some "nginx")))) = true
  /\ str_in DMsg.NOT_FOUND
       (captured_stderr
          (status_outcome Example.stops (Example.handle (Some "nginx"))))
     = false
  /\ running_line
       (captured_stdout
          (status_outcome Example.stops (Example.handle (Some "nginx"))))
  /\ exists st',
      running Example.stops (Example.handle (Some "nginx"))
      = (Return (Some true), st').
Proof.
  assert (running_line
            (captured_stdout
               (status_outcome Example.stops (Example.handle (Some "nginx")))))
    as Hline.
  { exists "", "", " ",
      (" since ..." +:+ String Re.newline "  Main PID: 1234 (nginx)").
    split; [reflexivity|]. split; [reflexivity|]. split; [reflexivity|].
    split; [reflexivity | discriminate]. }
  split; [reflexivity|]. split; [reflexivity|]. split; [exact Hline|].
  apply (running_true_on_running_line
           Example.stops (Example.handle (Some "nginx")) eq_refl eq_refl Hline).
  vm_compute. reflexivity.
Defined.

Lemma pid_is_number_after_main_pid_witness :
  truthy (_service_name (self (Example.handle (Some "nginx")))) = true
  /\ str_in DMsg.NOT_FOUND
       (captured_stderr
          (status_outcome Example.stops (Example.handle (Some "nginx"))))
     = false
  /\ running_line
       (captured_stdout
          (status_outcome Example.stops (Example.handle (Some "nginx"))))
  /\ pid_line
       (captured_stdout
          (status_outcome Example.stops (Example.handle (Some "nginx"))))
       "1234"
  /\ exists n st',
      int "1234" = Some n
      /\ running Example.stops (Example.handle (Some "nginx"))
         = (Return (Some true), st')
      /\ pid st' = (Return (Some n), st').
Proof.
  assert (running_line
            (captured_stdout
               (status_outcome Example.stops (Example.handle (Some "nginx")))))
    as Hrun.
  { exists "", "", " ",
      (" since ..." +:+ String Re.newline "  Main PID: 1234 (nginx)").
    split; [reflexivity|]. split; [reflexivity|]. split; [reflexivity|].
    split; [reflexivity | discriminate]. }
  assert (pid_line
            (captured_stdout
               (status_outcome Example.stops (Example.handle (Some "nginx"))))
            "1234") as Hpid.
  { exists ("Active: active (running) since ..." +:+ String Re.newline ""),
      "  ", " ", " (nginx)".
    split; [reflexivity|]. split; [reflexivity|]. split; [reflexivity|].
    split; [reflexivity|]. split; [reflexivity|]. split; [discriminate|].
    split; [reflexivity|]. split; [discriminate | reflexivity]. }
  split; [reflexivity|]. split; [reflexivity|].
  split; [exact Hrun|]. split; [exact Hpid|].
  apply (pid_is_number_after_main_pid
           Example.stops (Example.handle (Some "nginx")) "1234"
           eq_refl eq_refl Hrun Hpid).
  vm_compute. lia.
Defined.

Lemma enabled_true_on_enabled_line_witness :
  truthy (_service_name (self (Example.handle (Some "nginx")))) = true
  /\ str_in DMsg.NOT_FOUND
       (captured_stderr
          (status_outcome Example.healthy (Example.handle (Some "nginx"))))
     = false
  /\ enabled_line
       (captured_stdout
          (status_outcome Example.healthy (Example.handle (Some "nginx"))))
  /\ exists r st',
      _update_status Example.healthy (Example.handle (Some "nginx"))
      = (r, st')
      /\ enabled st' = (Return (Some true), st').
Proof.
  assert (enabled_line
            (captured_stdout
               (status_outcome Example.healthy
                               (Example.handle (Some "nginx"))))) as Hline.
  { exists "  ", "loaded (/lib/systemd/system/nginx.service",
      (" preset)" +:+ String Re.newline Example.running_text).
    split; reflexivity. }
  split; [reflexivity|]. split; [reflexivity|]. split; [exact Hline|].
  apply (enabled_true_on_enabled_line
           Example.healthy (Example.handle (Some "nginx"))
           eq_refl eq_refl Hline).
Defined.

Lemma rename_keeps_fields_when_query_times_out_witness :
  truthy (Some "sshd") = true
  /\ Some "sshd" <> _service_name (self (Example.handle (Some "nginx")))
  /\ status_outcome Example.hangs
                    (renamed "sshd" (Example.handle (Some "nginx")))
     = TimeoutExpired
  /\ exists st',
      service_name Example.hangs (Some "sshd") (Example.handle (Some "nginx"))
      = (Return (Some "sshd"), st')
      /\ _service_name (self st') = Some "sshd".
Proof.
  assert (Some "sshd" <> _service_name (self (Example.handle (Some "nginx"))))
    as Hdiff by discriminate.
  split; [reflexivity|]. split; [exact Hdiff|]. split; [reflexivity|].
  destruct (rename_keeps_fields_when_query_times_out
              Example.hangs (Example.handle (Some "nginx")) "sshd"
              eq_refl Hdiff eq_refl) as (st' & Hs & Hn & _).
  exists st'. split; [exact Hs | exact Hn].
Defined.

Lemma running_raises_on_long_pid_witness :
  truthy (_service_name (self (Example.handle (Some "nginx")))) = true
  /\ str_in DMsg.NOT_FOUND
       (captured_stderr
          (status_outcome Example.long_pid (Example.handle (Some "nginx"))))
     = false
  /\ (4300 < String.length (Example.digits_run 4301))%nat
  /\ exists st',
      running Example.long_pid (Example.handle (Some "nginx"))
      = (Raise (ValueError (int_error (Example.digits_run 4301))), st')
      /\ ACTIVE (result (self st')) = Some true.
Proof.
  assert (running_line
            (captured_stdout
               (status_outcome Example.long_pid
                               (Example.handle (Some "nginx"))))) as Hrun.
  { exists "", "", " ",
      (String Re.newline ("Main PID: " +:+ Example.digits_run 4301)).
    split; [reflexivity|]. split; [reflexivity|]. split; [reflexivity|].
    split; [reflexivity | discriminate]. }
  assert (pid_line
            (captured_stdout
               (status_outcome Example.long_pid
                               (Example.handle (Some "nginx"))))
            (Example.digits_run 4301)) as Hpid.
  { exists ("Active: active (running)" +:+ String Re.newline ""),
      "", " ", "".
    split; [vm_compute; reflexivity|]. split; [reflexivity|].
    split; [reflexivity|]. split; [reflexivity|]. split; [reflexivity|].
    split; [discriminate|]. split; [vm_compute; reflexivity|].
    split; [discriminate | reflexivity]. }
  assert (4300 < String.length (Example.digits_run 4301))%nat as Hlen
      by (vm_compute; lia).
  split; [reflexivity|]. split; [reflexivity|]. split; [exact Hlen|].
  destruct (running_raises_on_long_pid
              Example.long_pid (Example.handle (Some "nginx"))
              (Example.digits_run 4301) eq_refl eq_refl Hrun Hpid Hlen)
    as (st' & Hr & Ha & _).
  exists st'. split; [exact Hr | exact Ha].
Defined.
